(** * Context Vault API

    A shallow embedding of [main.py], the FastAPI facade that forwards
    "context" records to a hosted table store and relays query results.

    The two handlers talk to the outside world in exactly two ways: they read
    the clock ([datetime.utcnow()]) and they issue one HTTP call through
    [httpx].  Both are passed in explicitly: the clock reading as a
    [datetime], the network as a function from the request that is sent to
    what the call returns or raises.  Python exceptions are modelled by the
    [result] monad; the [try]/[except] chains of the handlers are written out
    as matches on the exception class. *)

From Stdlib Require Import ZArith Lia Ascii.
From stdpp Require Import gmap strings.
From Equations Require Import Equations.

Local Open Scope Z_scope.
Set Warnings "-register-all".

(** ** Python values and exceptions *)

Module Py.

(** JSON documents as Python sees them after [json.loads]: a [dict] keeps
    its insertion order, so objects are association lists. *)
Inductive value :=
| JNull
| JBool (b : bool)
| JInt (n : Z)
| JFloat (literal : string)
| JStr (s : string)
| JArr (items : list value)
| JObj (fields : list (string * value)).

Definition dict := list (string * value).

Fixpoint dict_get (key : string) (d : dict) : option value :=
  match d with
  | [] => None
  | (k, v) :: rest => if bool_decide (k = key) then Some v else dict_get key rest
  end.

(** The exception classes that can travel through the handlers.
    [HTTPException] is FastAPI's, [HTTPError] is [httpx.HTTPError] (with its
    subclasses); the other classes are builtins.  All of them derive from
    [Exception]; only [HTTPError] derives from [httpx.HTTPError]. *)
Inductive exn :=
| HTTPException (status_code : Z) (detail : string)
| HTTPError (message : string)
| IndexError (message : string)
| TypeError (message : string)
| ValueError (message : string)
| OtherException (class_name message : string).

Definition is_httpx_HTTPError (e : exn) : bool :=
  match e with
  | HTTPError _ => true
  | _ => false
  end.

Inductive result (A : Type) :=
| Return (a : A)
| Raise (e : exn).
Arguments Return {A} a.
Arguments Raise {A} e.

(** Sequencing: an exception raised by the first step skips the rest. *)
#[export] Instance result_bind : MBind result := fun A B k m =>
  match m with
  | Return a => k a
  | Raise e => Raise e
  end.

(** [str(e)].  For the builtin classes and for httpx this is the message the
    exception was built with.  What [str] gives on an [HTTPException]
    depends on the installed Starlette (older releases define no [__str__]),
    so that rendering is a parameter. *)
Definition str_exn (http_exception_str : Z -> string -> string) (e : exn) : string :=
  match e with
  | HTTPException status_code detail => http_exception_str status_code detail
  | HTTPError m | IndexError m | TypeError m | ValueError m => m
  | OtherException _ m => m
  end.

(** Truth value of an [Optional[str]]: [None] and the empty string are
    false. *)
Definition truthy (o : option string) : bool :=
  match o with
  | None => false
  | Some s => bool_decide (s ≠ "")
  end.

(** An [Optional[str]] inside an f-string. *)
Definition format_opt (o : option string) : string :=
  match o with
  | None => "None"
  | Some s => s
  end.

(** [d or {}] on an [Optional[dict]]. *)
Definition or_empty (o : option dict) : dict :=
  match o with
  | None => []
  | Some [] => []
  | Some d => d
  end.

(** [sep.join(parts)]. *)
Definition join (sep : string) (parts : list string) : string :=
  String.concat sep parts.

(** [result[0]] on a list. *)
Definition first_item (items : list value) : result value :=
  match items with
  | [] => Raise (IndexError "list index out of range")
  | x :: _ => Return x
  end.

Definition type_name (v : value) : string :=
  match v with
  | JNull => "NoneType"
  | JBool _ => "bool"
  | JInt _ => "int"
  | JFloat _ => "float"
  | JStr _ => "str"
  | JArr _ => "list"
  | JObj _ => "dict"
  end.

(** [len(v)] on a decoded JSON document. *)
Definition len (v : value) : result Z :=
  match v with
  | JArr items => Return (Z.of_nat (length items))
  | JObj fields => Return (Z.of_nat (length fields))
  | JStr s => Return (Z.of_nat (String.length s))
  | _ => Raise (TypeError ("object of type '" +:+ type_name v +:+ "' has no len()"))
  end.

(** *** Decimal rendering of integers *)

Definition digit_char (d : N) : ascii := ascii_of_N (48 + d).

Equations digits (n : N) : string by wf (N.to_nat (N.log2 n)) lt :=
  digits n with decide (n < 10)%N => {
    | left _ := String (digit_char n) "";
    | right Hge := digits (n / 10) +:+ String (digit_char (n mod 10)) "" }.
Next Obligation.
  assert (Hle : (n / 10 <= N.shiftr n 1)%N).
  { rewrite N.shiftr_div_pow2. change (2 ^ 1)%N with 2%N.
    apply N.div_le_lower_bound; [lia|].
    pose proof (N.Div0.mul_div_le n 10). lia. }
  apply N.log2_le_mono in Hle. rewrite N.log2_shiftr in Hle.
  assert (3 <= N.log2 n)%N.
  { change 3%N with (N.log2 8). apply N.log2_le_mono. lia. }
  lia.
Qed.

(** [str(n)] on an [int]. *)
Definition str_int (n : Z) : string :=
  match n with
  | Z0 => "0"
  | Zpos p => digits (Npos p)
  | Zneg p => "-" +:+ digits (Npos p)
  end.

Fixpoint zeros (k : nat) : string :=
  match k with
  | O => ""
  | S k' => String "0" (zeros k')
  end.

(** ["%0<width>d" % n] for a non-negative [n]. *)
Definition zero_pad (width : nat) (n : N) : string :=
  let s := digits n in
  zeros (width - String.length s) +:+ s.

(** *** [datetime] *)

Record datetime := {
  year : N; month : N; day : N;
  hour : N; minute : N; second : N; microsecond : N
}.

Definition is_leap (y : N) : bool :=
  ((y mod 4 =? 0) && (negb (y mod 100 =? 0) || (y mod 400 =? 0)))%N.

Definition days_in_month (y m : N) : N :=
  match m with
  | 2%N => if is_leap y then 29%N else 28%N
  | 4%N | 6%N | 9%N | 11%N => 30%N
  | _ => 31%N
  end.

(** The ranges every [datetime] object satisfies by construction. *)
Definition valid_datetime (t : datetime) : bool :=
  ((1 <=? year t) && (year t <=? 9999) &&
   (1 <=? month t) && (month t <=? 12) &&
   (1 <=? day t) && (day t <=? days_in_month (year t) (month t)) &&
   (hour t <=? 23) && (minute t <=? 59) && (second t <=? 59) &&
   (microsecond t <=? 999999))%N.

(** [t.isoformat()] of a naive [datetime]: the fractional part is printed
    only when the microsecond field is not zero. *)
Definition isoformat (t : datetime) : string :=
  zero_pad 4 (year t) +:+ "-" +:+ zero_pad 2 (month t) +:+ "-" +:+ zero_pad 2 (day t)
  +:+ "T" +:+
  zero_pad 2 (hour t) +:+ ":" +:+ zero_pad 2 (minute t) +:+ ":" +:+ zero_pad 2 (second t)
  +:+ (if (microsecond t =? 0)%N then "" else "." +:+ zero_pad 6 (microsecond t)).

End Py.

Import Py.

(** ** The [httpx] surface the handlers use *)

Module Httpx.

Inductive http_method := GET | POST.

(** What [client.post(url, headers=..., json=...)] and
    [client.get(url, headers=...)] put on the wire. *)
Record request := {
  method : http_method;
  url : string;
  headers : list (string * string);
  json_body : option dict
}.

(** An [httpx.Response]: [status_code], [text], and what [json()] gives,
    which raises when the body does not decode. *)
Record response := {
  status_code : Z;
  text : string;
  json : result value
}.

(** One network call: a response, or the exception the call raises. *)
Definition transport := request -> result response.

End Httpx.

Import Httpx.

(** ** [main.py] *)

Module Main.

(** The two module-level settings, once the check at import time passed. *)
Record config := {
  SUPABASE_URL : string;
  SUPABASE_SERVICE_KEY : string
}.

(** Lines 21-25: [os.getenv] twice, then the guard.  [environ] is
    [os.environ]; a variable that is not set reads as [None]. *)
Definition load_settings (environ : gmap string string) : result config :=
  let url := environ !! "SUPABASE_URL" in
  let key := environ !! "SUPABASE_SERVICE_KEY" in
  if negb (truthy url) || negb (truthy key)
  then Raise (ValueError "SUPABASE_URL and SUPABASE_SERVICE_KEY must be set")
  else Return {| SUPABASE_URL := format_opt url;
                 SUPABASE_SERVICE_KEY := format_opt key |}.

(** The pydantic model [ContextData]. *)
Record ContextData := {
  user_id : string;
  context_type : string;
  context_data : dict;
  metadata : option dict
}.

Section Handlers.

Variable cfg : config.
(** [str] of a FastAPI [HTTPException], see [Py.str_exn]. *)
Variable http_exception_str : Z -> string -> string.
Variable send : transport.

Definition str (e : exn) : string := str_exn http_exception_str e.

Definition table_url : string := SUPABASE_URL cfg +:+ "/rest/v1/context_vault".

(** *** [GET /] *)
Definition root : result value :=
  Return (JObj [("message", JStr "Context Vault API");
                ("version", JStr "1.0.0");
                ("endpoints", JArr [JStr "/vault/save"; JStr "/vault/context"])]).

(** *** [POST /vault/save] *)

Definition save_headers : list (string * string) :=
  [("apikey", SUPABASE_SERVICE_KEY cfg);
   ("Authorization", "Bearer " +:+ SUPABASE_SERVICE_KEY cfg);
   ("Content-Type", "application/json");
   ("Prefer", "return=representation")].

(** Lines 70-76. *)
Definition save_payload (context : ContextData) (utcnow : datetime) : dict :=
  [("user_id", JStr (user_id context));
   ("context_type", JStr (context_type context));
   ("context_data", JObj (context_data context));
   ("metadata", JObj (or_empty (metadata context)));
   ("created_at", JStr (isoformat utcnow))].

Definition save_request (context : ContextData) (utcnow : datetime) : request :=
  {| method := POST;
     url := table_url;
     headers := save_headers;
     json_body := Some (save_payload context utcnow) |}.

(** The body of the [try] block, lines 62-95. *)
Definition save_context_try (context : ContextData) (utcnow : datetime) : result value :=
  response ← send (save_request context utcnow);
  if negb (bool_decide (status_code response ∈ [200; 201]))
  then Raise (HTTPException (status_code response)
                            ("Failed to save context: " +:+ text response))
  else
    result ← json response;
    data ← match result with
           | JArr items => first_item items
           | _ => Return result
           end;
    Return (JObj [("success", JBool true);
                  ("message", JStr "Context saved successfully");
                  ("data", data)]).

(** The handler with its two [except] clauses, lines 97-100: the first
    one takes [httpx.HTTPError], the second one every [Exception]. *)
Definition save_context (context : ContextData) (utcnow : datetime) : result value :=
  match save_context_try context utcnow with
  | Return v => Return v
  | Raise e =>
      if is_httpx_HTTPError e
      then Raise (HTTPException 500 ("HTTP error occurred: " +:+ str e))
      else Raise (HTTPException 500 ("Error saving context: " +:+ str e))
  end.

(** *** [GET /vault/context] *)

Definition get_headers : list (string * string) :=
  [("apikey", SUPABASE_SERVICE_KEY cfg);
   ("Authorization", "Bearer " +:+ SUPABASE_SERVICE_KEY cfg);
   ("Content-Type", "application/json")].

(** Lines 131-135. *)
Definition build_filters (user_id context_type : option string) : list string :=
  (if truthy user_id then ["user_id=eq." +:+ format_opt user_id] else [])
  ++ (if truthy context_type then ["context_type=eq." +:+ format_opt context_type] else []).

(** Lines 137-141. *)
Definition get_url (user_id context_type : option string) (limit : Z) : string :=
  let filters := build_filters user_id context_type in
  let url := table_url in
  match filters with
  | _ :: _ =>
      url +:+ ("?" +:+ join "&" (filters ++ ["limit=" +:+ str_int limit;
                                              "order=created_at.desc"]))
  | [] =>
      url +:+ ("?limit=" +:+ str_int limit +:+ "&order=created_at.desc")
  end.

Definition get_request (user_id context_type : option string) (limit : Z) : request :=
  {| method := GET;
     url := get_url user_id context_type limit;
     headers := get_headers;
     json_body := None |}.

(** The body of the [try] block, lines 120-156. *)
Definition get_context_try (user_id context_type : option string) (limit : Z)
  : result value :=
  response ← send (get_request user_id context_type limit);
  if negb (bool_decide (status_code response = 200))
  then Raise (HTTPException (status_code response)
                            ("Failed to retrieve context: " +:+ text response))
  else
    result ← json response;
    count ← len result;
    Return (JObj [("success", JBool true);
                  ("count", JInt count);
                  ("data", result)]).

Definition get_context (user_id context_type : option string) (limit : Z)
  : result value :=
  match get_context_try user_id context_type limit with
  | Return v => Return v
  | Raise e =>
      if is_httpx_HTTPError e
      then Raise (HTTPException 500 ("HTTP error occurred: " +:+ str e))
      else Raise (HTTPException 500 ("Error retrieving context: " +:+ str e))
  end.

(** *** [GET /health] *)
Definition health_check (utcnow : datetime) : result value :=
  Return (JObj [("status", JStr "healthy");
                ("timestamp", JStr (isoformat utcnow))]).

End Handlers.

(** *** What the caller sees *)

(** The HTTP reply FastAPI builds from a handler's outcome: a returned
    [dict] is sent with status 200, an [HTTPException] with its own status
    and a [detail] body, anything else as a bare 500. *)
Record reply := {
  reply_status : Z;
  reply_body : value
}.

Definition respond (outcome : result value) : reply :=
  match outcome with
  | Return v => {| reply_status := 200; reply_body := v |}
  | Raise (HTTPException status detail) =>
      {| reply_status := status; reply_body := JObj [("detail", JStr detail)] |}
  | Raise _ =>
      {| reply_status := 500; reply_body := JStr "Internal Server Error" |}
  end.

(** The four routes, as the handlers are called: FastAPI has already
    decoded the body into a [ContextData] and the query parameters into
    their types.  A request that does not decode is answered by FastAPI
    itself, before any handler runs, and is not a call in this sense. *)
Inductive api_call :=
| GetRoot
| PostSave (context : ContextData)
| GetContext (user_id context_type : option string) (limit : Z)
| GetHealth.

Definition handle (cfg : config) (http_exception_str : Z -> string -> string)
    (send : transport) (utcnow : datetime) (call : api_call) : reply :=
  respond
    match call with
    | GetRoot => root
    | PostSave context => save_context cfg http_exception_str send context utcnow
    | GetContext user_id context_type limit =>
        get_context cfg http_exception_str send user_id context_type limit
    | GetHealth => health_check utcnow
    end.

(** *** The process *)

(** Importing the module either raises, and then there is no [app] to
    serve, or leaves the settings in place for the handlers. *)
Inductive process :=
| Crashed (e : exn)
| Serving (cfg : config).

Definition start (environ : gmap string string) : process :=
  match load_settings environ with
  | Raise e => Crashed e
  | Return cfg => Serving cfg
  end.

(** The replies a process gives to a sequence of calls, each arriving with
    its own clock reading. *)
Definition serve (p : process) (http_exception_str : Z -> string -> string)
    (send : transport) (calls : list (datetime * api_call)) : list reply :=
  match p with
  | Crashed _ => []
  | Serving cfg =>
      map (fun '(utcnow, call) => handle cfg http_exception_str send utcnow call) calls
  end.

End Main.

Import Main.

(** ** Vocabulary of the properties *)

(** [needle] occurs in [hay] as a contiguous run of characters. *)
Definition occurs_in (needle hay : string) : Prop :=
  exists before after, hay = before +:+ needle +:+ after.

(** The executable version of [occurs_in]. *)
Fixpoint occurs_inb (needle hay : string) : bool :=
  String.prefix needle hay ||
  match hay with
  | EmptyString => false
  | String _ rest => occurs_inb needle rest
  end.

(** [s.split(sep)] for a one-character separator: the pieces between the
    separators, empty pieces included. *)
Fixpoint split_on (sep : ascii) (s : string) : list string :=
  match s with
  | EmptyString => [EmptyString]
  | String c rest =>
      if bool_decide (c = sep) then EmptyString :: split_on sep rest
      else match split_on sep rest with
           | piece :: pieces => String c piece :: pieces
           | [] => [String c EmptyString]
           end
  end.

(** The parameters an HTTP server reads off a query string. *)
Definition query_parameters (query : string) : list string :=
  split_on "&"%char query.

Definition has_char (c : ascii) (s : string) : bool :=
  bool_decide (c ∈ String.list_ascii_of_string s).

(** What [get_context] appends to the table URL after the question mark, as
    the list it joins. *)
Definition query_parts (user_id context_type : option string) (limit : Z) : list string :=
  build_filters user_id context_type
  ++ ["limit=" +:+ str_int limit; "order=created_at.desc"].

Definition query_string (user_id context_type : option string) (limit : Z) : string :=
  join "&" (query_parts user_id context_type limit).

(** *** The ISO-8601 extended format [YYYY-MM-DDThh:mm:ss[.f+]] *)

Definition is_digit (c : ascii) : bool :=
  let n := N_of_ascii c in ((48 <=? n) && (n <=? 57))%N.

Definition digit_val (c : ascii) : N := (N_of_ascii c - 48)%N.

Definition two_digit_field (a b : ascii) (lo hi : N) : bool :=
  let v := (10 * digit_val a + digit_val b)%N in
  (is_digit a && is_digit b && (lo <=? v) && (v <=? hi))%N.

Definition is_fraction (s : list ascii) : bool :=
  match s with
  | [] => true
  | dot :: ds => bool_decide (dot = "."%char) && negb (bool_decide (ds = [])) && forallb is_digit ds
  end.

Definition is_iso8601 (s : string) : bool :=
  match String.list_ascii_of_string s with
  | y1 :: y2 :: y3 :: y4 :: dash1 :: mo1 :: mo2 :: dash2 :: d1 :: d2 :: sep
    :: h1 :: h2 :: colon1 :: mi1 :: mi2 :: colon2 :: s1 :: s2 :: fraction =>
      forallb is_digit [y1; y2; y3; y4]
      && bool_decide (dash1 = "-"%char) && two_digit_field mo1 mo2 1 12
      && bool_decide (dash2 = "-"%char) && two_digit_field d1 d2 1 31
      && bool_decide (sep = "T"%char)
      && two_digit_field h1 h2 0 23
      && bool_decide (colon1 = ":"%char) && two_digit_field mi1 mi2 0 59
      && bool_decide (colon2 = ":"%char) && two_digit_field s1 s2 0 60
      && is_fraction fraction
  | _ => false
  end.

(** *** Reading an ISO-8601 timestamp

    [parse_iso8601] reads the extended format
    [YYYY-MM-DDThh:mm:ss[.f{1,6}][Z|+hh:mm|-hh:mm]] and gives the calendar
    fields together with the zone the text names; it refuses a text whose
    fields are not a date and time of the calendar. *)

(** The zone a timestamp names: none at all, or an offset from UTC in
    minutes ([Z] is the offset zero). *)
Inductive zone :=
| Naive
| Offset (minutes : Z).

(** The number a run of decimal digits denotes. *)
Definition number (ds : list ascii) : option N :=
  if forallb is_digit ds
  then Some (fold_left (fun acc c => (10 * acc + digit_val c)%N) ds 0%N)
  else None.

Fixpoint leading_digits (s : list ascii) : list ascii * list ascii :=
  match s with
  | c :: rest =>
      if is_digit c
      then let '(ds, tail) := leading_digits rest in (c :: ds, tail)
      else ([], s)
  | [] => ([], [])
  end.

(** The optional fraction of a second, in microseconds, and what follows
    it. *)
Definition parse_fraction (s : list ascii) : option (N * list ascii) :=
  match s with
  | dot :: rest =>
      if Ascii.eqb dot "."
      then let '(ds, tail) := leading_digits rest in
           if ((1 <=? length ds) && (length ds <=? 6))%nat
           then us ← number ds; Some ((us * 10 ^ N.of_nat (6 - length ds))%N, tail)
           else None
      else Some (0%N, s)
  | [] => Some (0%N, [])
  end.

Definition parse_zone (s : list ascii) : option zone :=
  match s with
  | [] => Some Naive
  | [z] => if Ascii.eqb z "Z" then Some (Offset 0) else None
  | [sign; h1; h2; colon; m1; m2] =>
      h ← number [h1; h2];
      m ← number [m1; m2];
      if (Ascii.eqb colon ":" && (h <=? 23) && (m <=? 59))%N
      then if Ascii.eqb sign "+" then Some (Offset (Z.of_N (60 * h + m)))
           else if Ascii.eqb sign "-" then Some (Offset (- Z.of_N (60 * h + m)))
           else None
      else None
  | _ => None
  end.

Definition parse_iso8601 (s : string) : option (datetime * zone) :=
  match String.list_ascii_of_string s with
  | y1 :: y2 :: y3 :: y4 :: dash1 :: mo1 :: mo2 :: dash2 :: d1 :: d2 :: sep
    :: h1 :: h2 :: colon1 :: mi1 :: mi2 :: colon2 :: s1 :: s2 :: rest =>
      if Ascii.eqb dash1 "-" && Ascii.eqb dash2 "-" && Ascii.eqb sep "T"
         && Ascii.eqb colon1 ":" && Ascii.eqb colon2 ":"
      then
        y ← number [y1; y2; y3; y4];
        mo ← number [mo1; mo2];
        d ← number [d1; d2];
        h ← number [h1; h2];
        mi ← number [mi1; mi2];
        sec ← number [s1; s2];
        '(us, tail) ← parse_fraction rest;
        z ← parse_zone tail;
        let t := {| year := y; month := mo; day := d;
                    hour := h; minute := mi; second := sec; microsecond := us |} in
        if valid_datetime t then Some (t, z) else None
      else None
  | _ => None
  end.

(** [n] written with exactly [width] decimal digits, the low ones. *)
Fixpoint fixed_width (width : nat) (n : N) : string :=
  match width with
  | O => ""
  | S w => fixed_width w (n / 10) +:+ String (digit_char (n mod 10)) ""
  end.

(** The rendering of [HTTPException] in current Starlette releases,
    [f"{status_code}: {detail}"], and the one of releases without
    [__str__], where [str] of an exception built from keyword arguments is
    empty. *)
Definition starlette_str (status_code : Z) (detail : string) : string :=
  str_int status_code +:+ ": " +:+ detail.

Definition starlette_legacy_str (status_code : Z) (detail : string) : string := "".

(** The two success envelopes. *)
Definition saved_envelope (data : value) : value :=
  JObj [("success", JBool true);
        ("message", JStr "Context saved successfully");
        ("data", data)].

Definition query_envelope (records : list value) : value :=
  JObj [("success", JBool true);
        ("count", JInt (Z.of_nat (length records)));
        ("data", JArr records)].

(** The store as [Prefer: return=representation] makes it answer a write:
    201 and the row it was sent.  What comes back shows what went out. *)
Definition echo_store : transport := fun req =>
  match json_body req with
  | Some row => Return {| status_code := 201; text := "[{...}]";
                          json := Return (JArr [JObj row]) |}
  | None => Return {| status_code := 200; text := "[]"; json := Return (JArr []) |}
  end.

(** A handler forwards the request [q]: its outcome changes with the
    transport, and only with what the transport answers to [q]. *)
Definition forwards (handler : transport -> result value) (q : request) : Prop :=
  (forall send send', send q = send' q -> handler send = handler send')
  /\ exists send send', handler send <> handler send'.

(** The filters as they stand in the query string, each closed by an
    ampersand. *)
Definition filters_text (filters : list string) : string :=
  fold_right (fun f rest => f +:+ "&" +:+ rest) "" filters.

(** A transport that answers every call with the same response. *)
Definition always (r : response) : transport := fun _ => Return r.

(** The reply FastAPI gives for an [HTTPException]. *)
Definition error_reply (status : Z) (detail : string) : reply :=
  {| reply_status := status; reply_body := JObj [("detail", JStr detail)] |}.

(** A transport on which every call raises. *)
Definition failing (e : exn) : transport := fun _ => Raise e.

(** Decoded JSON documents on which [len] raises [TypeError]. *)
Definition unsized (v : value) : bool :=
  match v with
  | JNull | JBool _ | JInt _ | JFloat _ => true
  | JStr _ | JArr _ | JObj _ => false
  end.

(** Reading a decimal numeral back, [int(s)] on what [str] prints. *)
Definition N_of_digits (s : string) : N :=
  fold_left (fun acc c => (10 * acc + digit_val c)%N) (String.list_ascii_of_string s) 0%N.

Definition int_of_str (s : string) : Z :=
  match s with
  | String c rest =>
      if bool_decide (c = "-"%char) then - Z.of_N (N_of_digits rest)
      else Z.of_N (N_of_digits s)
  | EmptyString => 0
  end.

(** A transport that serves reads and refuses writes. *)
Definition read_only (r : response) : transport := fun req =>
  match method req with
  | GET => Return r
  | POST => Raise (HTTPError "All connection attempts failed")
  end.

(** *** Sample data *)

Definition sample_cfg : config :=
  {| SUPABASE_URL := "https://vault.example.co"; SUPABASE_SERVICE_KEY := "service-key" |}.

Definition sample_time : datetime :=
  {| year := 2024; month := 2; day := 29;
     hour := 9; minute := 5; second := 0; microsecond := 120 |}.

Definition sample_context : ContextData :=
  {| user_id := "u1"; context_type := "note";
     context_data := [("text", JStr "hi")]; metadata := None |}.

Definition sample_row : value :=
  JObj [("id", JStr "abc"); ("user_id", JStr "u1"); ("context_type", JStr "note")].

Definition created_response : response :=
  {| status_code := 201; text := "[{...}]"; json := Return (JArr [sample_row]) |}.

Definition empty_created_response : response :=
  {| status_code := 201; text := "[]"; json := Return (JArr []) |}.

Definition unavailable_response : response :=
  {| status_code := 503; text := "upstream unavailable";
     json := Raise (ValueError "Expecting value: line 1 column 1 (char 0)") |}.

Definition rows_response : response :=
  {| status_code := 200; text := "[{...},{...},{...}]";
     json := Return (JArr [sample_row; sample_row; JNull]) |}.

Definition error_object_response : response :=
  {| status_code := 200; text := "{...}";
     json := Return (JObj [("code", JStr "PGRST100"); ("message", JStr "parse error")]) |}.

Definition null_response : response :=
  {| status_code := 200; text := "null"; json := Return JNull |}.

Definition html_response : response :=
  {| status_code := 200; text := "<html>";
     json := Raise (ValueError "Expecting value: line 1 column 1 (char 0)") |}.

Definition accepted_response : response :=
  {| status_code := 204; text := ""; json := Raise (ValueError "Expecting value") |}.

Definition tagged_context : ContextData :=
  {| user_id := "u2"; context_type := "prefs";
     context_data := [("created_at", JStr "1999-01-01T00:00:00"); ("theme", JStr "dark")];
     metadata := Some [("source", JStr "mobile")] |}.

(** ** Strings *)

(** stdpp blocks [simpl] on string concatenation; the proofs below compute
    with literals all the time. *)
Local Arguments String.append !_ _ / : simpl nomatch.

Section Strings.

Implicit Types (s t u : string) (c : ascii).

Lemma str_app_nil_r s : s +:+ "" = s.
Proof. induction s as [|a s IH]; simpl; [done | by rewrite IH]. Qed.

Lemma str_app_assoc s t u : (s +:+ t) +:+ u = s +:+ (t +:+ u).
Proof. induction s as [|a s IH]; simpl; [done | by rewrite IH]. Qed.

Lemma str_app_length s t :
  String.length (s +:+ t) = (String.length s + String.length t)%nat.
Proof. induction s as [|a s IH]; simpl; [done | by rewrite IH]. Qed.

Lemma occurs_in_refl s : occurs_in s s.
Proof. exists "", "". simpl. by rewrite str_app_nil_r. Qed.

Lemma occurs_in_empty s : occurs_in "" s.
Proof. by exists "", s. Qed.

Lemma occurs_in_app_l s t u : occurs_in s t -> occurs_in s (t +:+ u).
Proof.
  intros (b & a & ->). exists b, (a +:+ u). by rewrite !str_app_assoc.
Qed.

Lemma occurs_in_app_r s t u : occurs_in s u -> occurs_in s (t +:+ u).
Proof.
  intros (b & a & ->). exists (t +:+ b), a. by rewrite !str_app_assoc.
Qed.

Lemma occurs_in_trans s t u : occurs_in s t -> occurs_in t u -> occurs_in s u.
Proof.
  intros Hst (b & a & ->). by apply occurs_in_app_r, occurs_in_app_l.
Qed.

Lemma prefix_spec s t : String.prefix s t = true <-> exists after, t = s +:+ after.
Proof.
  revert t. induction s as [|a s IH]; intros t.
  - destruct t; simpl; split; eauto.
  - destruct t as [|b t]; simpl.
    + split; [done | by intros (? & ?)].
    + destruct (ascii_dec a b) as [->|Hne].
      * rewrite IH. split; intros (after & E); exists after; congruence.
      * split; [done | intros (after & E); congruence].
Qed.

Lemma occurs_inb_spec s t : occurs_inb s t = true <-> occurs_in s t.
Proof.
  induction t as [|b t IH].
  - cbn [occurs_inb]. rewrite orb_false_r, prefix_spec. split.
    + intros (after & ->). exists "", after. done.
    + intros ([|??] & after & E); simpl in E; [eauto | done].
  - cbn [occurs_inb]. rewrite orb_true_iff, IH, prefix_spec. split.
    + intros [(after & ->) | (b' & a' & ->)].
      * by exists "", after.
      * by exists (String b b'), a'.
    + intros ([|x b'] & after & E); simpl in E.
      * left. eauto.
      * right. injection E as -> ->. by exists b', after.
Qed.

(** *** Splitting and joining *)

Lemma split_on_nonempty c s : split_on c s <> [].
Proof.
  induction s as [|a s IH]; simpl; [done |].
  case_bool_decide; [done |]. by destruct (split_on c s).
Qed.

Lemma split_on_app c s t :
  split_on c (s +:+ String c t) = split_on c s ++ split_on c t.
Proof.
  induction s as [|a s IH]; simpl.
  - by rewrite bool_decide_eq_true_2.
  - case_bool_decide; [by rewrite IH |].
    rewrite IH. pose proof (split_on_nonempty c s).
    by destruct (split_on c s).
Qed.

Lemma split_on_absent c s : has_char c s = false -> split_on c s = [s].
Proof.
  unfold has_char. rewrite bool_decide_eq_false.
  induction s as [|a s IH]; simpl; [done |].
  intros Hnot. rewrite bool_decide_eq_false_2 by set_solver.
  rewrite IH by set_solver. done.
Qed.

Lemma split_on_join c (parts : list string) :
  parts <> [] ->
  split_on c (join (String c "") parts) = concat (map (split_on c) parts).
Proof.
  induction parts as [|p parts IH]; [done | intros _].
  destruct parts as [|q parts].
  - simpl. by rewrite List.app_nil_r.
  - change (join (String c "") (p :: q :: parts))
      with (p +:+ String c (join (String c "") (q :: parts))).
    rewrite split_on_app, IH by done. done.
Qed.

Lemma split_on_last c s t :
  has_char c t = false -> In t (split_on c (s +:+ String c t)).
Proof.
  intros Ht. rewrite split_on_app, (split_on_absent c t Ht).
  apply in_or_app. right. by left.
Qed.

End Strings.

(** ** Decimal digits *)

Section Digits.

Local Open Scope N_scope.

Lemma below_ten (d : N) :
  d < 10 -> d ∈ [0; 1; 2; 3; 4; 5; 6; 7; 8; 9].
Proof.
  intros Hd. rewrite <- (N2Nat.id d).
  assert (N.to_nat d < 10)%nat as Hn by lia.
  revert Hn. generalize (N.to_nat d). intros k Hk.
  do 10 (destruct k as [|k]; [set_solver |]). lia.
Qed.

Ltac each_digit H :=
  apply below_ten in H; repeat (apply elem_of_cons in H as [-> | H]); [.. | by apply elem_of_nil in H].

Lemma is_digit_digit_char d : d < 10 -> is_digit (digit_char d) = true.
Proof. intros H. each_digit H; reflexivity. Qed.

Lemma digit_val_digit_char d : d < 10 -> digit_val (digit_char d) = d.
Proof. intros H. each_digit H; reflexivity. Qed.

Lemma digit_char_not_amp d : d < 10 -> digit_char d <> "&"%char.
Proof. intros H. each_digit H; discriminate. Qed.

Lemma digits_eq n :
  digits n = if decide (n < 10) then String (digit_char n) ""
             else digits (n / 10) +:+ String (digit_char (n mod 10)) "".
Proof.
  rewrite digits_equation_1 at 1.
  destruct (decide (n < 10)); reflexivity.
Qed.

Lemma mod_10_lt n : n mod 10 < 10.
Proof. apply N.mod_lt. lia. Qed.

(** Every character [digits] prints is a decimal digit. *)
Lemma digits_all_digit n :
  Forall (fun c => is_digit c = true) (String.list_ascii_of_string (digits n)).
Proof.
  induction n as [n IH] using (well_founded_induction N.lt_wf_0).
  rewrite digits_eq. destruct (decide (n < 10)) as [Hlt | Hge].
  - simpl. repeat constructor. by apply is_digit_digit_char.
  - assert (n / 10 < n) as Hdiv by (apply N.div_lt; lia).
    specialize (IH _ Hdiv). revert IH.
    generalize (digits (n / 10)). intros s.
    induction s as [|a s IHs]; simpl; intros Hall.
    + repeat constructor. apply is_digit_digit_char, mod_10_lt.
    + inversion Hall; subst. constructor; auto.
Qed.

Lemma digits_length n (w : nat) :
  n < 10 ^ N.of_nat (S w) -> (String.length (digits n) <= S w)%nat.
Proof.
  revert n. induction w as [|w IH]; intros n Hn.
  - rewrite digits_eq. change (10 ^ N.of_nat 1) with 10 in Hn.
    by rewrite decide_True.
  - rewrite digits_eq. destruct (decide (n < 10)); [simpl; lia |].
    rewrite str_app_length. simpl.
    assert (n / 10 < 10 ^ N.of_nat (S w)).
    { apply N.Div0.div_lt_upper_bound.
      rewrite <- N.pow_succ_r'. by rewrite <- Nat2N.inj_succ. }
    specialize (IH _ H). lia.
Qed.

Lemma zeros_snoc k : zeros k +:+ "0" = String "0" (zeros k).
Proof. induction k as [|k IH]; simpl; [done | by rewrite IH]. Qed.

Lemma fixed_width_zero w : fixed_width w 0 = zeros w.
Proof.
  induction w as [|w IH]; [done |].
  cbn [fixed_width]. change (0 / 10) with 0. rewrite IH.
  change (String (digit_char (0 mod 10)) "") with "0"%string.
  apply zeros_snoc.
Qed.

Lemma fixed_width_S w n :
  fixed_width (S w) n = fixed_width w (n / 10) +:+ String (digit_char (n mod 10)) "".
Proof. reflexivity. Qed.

(** Below [10 ^ width] the padded rendering has exactly [width] digits. *)
Lemma zero_pad_fixed_width (w : nat) n :
  n < 10 ^ N.of_nat (S w) -> zero_pad (S w) n = fixed_width (S w) n.
Proof.
  revert n. induction w as [|w IH]; intros n Hn.
  - change (10 ^ N.of_nat 1) with 10 in Hn.
    unfold zero_pad. rewrite digits_eq, decide_True by done.
    cbn. rewrite N.mod_small by done. done.
  - rewrite fixed_width_S. unfold zero_pad at 1. rewrite digits_eq.
    destruct (decide (n < 10)) as [Hlt | Hge].
    + rewrite (N.div_small n 10), (N.mod_small n 10) by done.
      rewrite fixed_width_zero. cbn [String.length].
      replace (S (S w) - 1)%nat with (S w) by lia. done.
    + assert (n / 10 < 10 ^ N.of_nat (S w)) as Hdiv.
      { apply N.Div0.div_lt_upper_bound.
        rewrite <- N.pow_succ_r'. by rewrite <- Nat2N.inj_succ. }
      pose proof (digits_length _ _ Hdiv) as Hlen.
      rewrite <- (IH _ Hdiv).
      unfold zero_pad. rewrite str_app_length. cbn [String.length].
      replace (S (S w) - (String.length (digits (n / 10)) + 1))%nat
        with (S w - String.length (digits (n / 10)))%nat by lia.
      by rewrite !str_app_assoc.
Qed.

End Digits.

(** ** [isoformat] prints ISO-8601 *)

Section Isoformat.

Local Open Scope N_scope.

Lemma fixed_width_2 n :
  fixed_width 2 n = String (digit_char (n / 10 mod 10)) (String (digit_char (n mod 10)) "").
Proof. reflexivity. Qed.

Lemma fixed_width_4 n :
  fixed_width 4 n =
  String (digit_char (n / 10 / 10 / 10 mod 10))
    (String (digit_char (n / 10 / 10 mod 10))
       (String (digit_char (n / 10 mod 10)) (String (digit_char (n mod 10)) ""))).
Proof. reflexivity. Qed.

Lemma fixed_width_all_digit w n :
  forallb is_digit (String.list_ascii_of_string (fixed_width w n)) = true.
Proof.
  revert n. induction w as [|w IH]; intros n; [done |].
  rewrite fixed_width_S. specialize (IH (n / 10)). revert IH.
  generalize (fixed_width w (n / 10)). intros s.
  induction s as [|a s IHs]; simpl.
  - intros _. by rewrite is_digit_digit_char by apply mod_10_lt.
  - intros [-> Hs]%andb_true_iff. simpl. auto.
Qed.

Lemma two_digit_field_fixed n lo hi :
  lo <= n -> n <= hi -> n < 100 ->
  two_digit_field (digit_char (n / 10 mod 10)) (digit_char (n mod 10)) lo hi = true.
Proof.
  intros Hlo Hhi Hn. unfold two_digit_field.
  assert (n / 10 < 10) as Hdiv by (apply N.Div0.div_lt_upper_bound; lia).
  rewrite (N.mod_small (n / 10)) by done.
  rewrite !is_digit_digit_char, !digit_val_digit_char by (done || apply mod_10_lt).
  pose proof (N.div_mod n 10 ltac:(lia)) as Hdm.
  simpl. apply andb_true_iff. split; apply N.leb_le; lia.
Qed.

Lemma days_in_month_le y m : days_in_month y m <= 31.
Proof.
  unfold days_in_month.
  repeat match goal with
         | |- context [match ?x with _ => _ end] => destruct x
         end; lia.
Qed.

Lemma valid_datetime_ranges t :
  valid_datetime t = true ->
  (1 <= year t <= 9999) /\ (1 <= month t <= 12) /\ (1 <= day t <= 31) /\
  hour t <= 23 /\ minute t <= 59 /\ second t <= 59 /\ microsecond t <= 999999.
Proof.
  unfold valid_datetime. rewrite !andb_true_iff, !N.leb_le.
  pose proof (days_in_month_le (year t) (month t)). lia.
Qed.

Lemma isoformat_is_iso8601 t :
  valid_datetime t = true -> is_iso8601 (isoformat t) = true.
Proof.
  intros (Hy & Hmo & Hd & Hh & Hmi & Hs & Hus)%valid_datetime_ranges.
  unfold isoformat.
  rewrite (zero_pad_fixed_width 3 (year t)) by (change (10 ^ N.of_nat 4) with 10000; lia).
  rewrite !(zero_pad_fixed_width 1) by (change (10 ^ N.of_nat 2) with 100; lia).
  rewrite !fixed_width_2, fixed_width_4.
  assert (forall k, k < 10 -> is_digit (digit_char k) = true) as Hdig
    by apply is_digit_digit_char.
  assert (Hfrac : is_fraction (String.list_ascii_of_string
            (if microsecond t =? 0 then ""%string
             else "." +:+ zero_pad 6 (microsecond t))) = true).
  { destruct (microsecond t =? 0); [done |].
    rewrite (zero_pad_fixed_width 5) by (change (10 ^ N.of_nat 6) with 1000000; lia).
    pose proof (fixed_width_all_digit 6 (microsecond t)) as Hall.
    rewrite fixed_width_S in *.
    revert Hall. generalize (fixed_width 5 (microsecond t / 10)). intros s Hall.
    simpl. rewrite Hall, andb_true_r. by destruct s. }
  revert Hfrac.
  generalize (if microsecond t =? 0 then ""%string
              else "." +:+ zero_pad 6 (microsecond t)). intros frac Hfrac.
  unfold is_iso8601. cbn [String.append String.list_ascii_of_string forallb].
  rewrite !Hdig by apply mod_10_lt.
  rewrite !two_digit_field_fixed by lia.
  rewrite Hfrac. reflexivity.
Qed.

End Isoformat.

(** ** [POST /vault/save] *)

Section SaveContext.

Variable cfg : config.
Variable http_exception_str : Z -> string -> string.
Variable send : transport.

Implicit Types (context : ContextData) (utcnow : datetime) (r : response).

Lemma in_200_201 (status : Z) :
  status ∈ [200; 201] <-> status = 200 \/ status = 201.
Proof. rewrite !elem_of_cons, elem_of_nil. tauto. Qed.

(** The [except Exception] clause also takes the [HTTPException] that the
    [try] block raises for an upstream failure. *)
Lemma save_context_upstream_failure context utcnow r :
  send (save_request cfg context utcnow) = Return r ->
  status_code r <> 200 -> status_code r <> 201 ->
  save_context cfg http_exception_str send context utcnow =
  Raise (HTTPException 500
           ("Error saving context: " +:+
            http_exception_str (status_code r)
              ("Failed to save context: " +:+ text r))).
Proof.
  intros Hsend H200 H201. unfold save_context, save_context_try.
  rewrite Hsend. cbn [mbind result_bind].
  rewrite bool_decide_eq_false_2 by (rewrite in_200_201; tauto).
  reflexivity.
Qed.

Lemma save_context_success_body context utcnow r body :
  send (save_request cfg context utcnow) = Return r ->
  status_code r = 200 \/ status_code r = 201 ->
  json r = Return body ->
  save_context_try cfg send context utcnow =
  data ← match body with
         | JArr items => first_item items
         | _ => Return body
         end;
  Return (saved_envelope data).
Proof.
  intros Hsend Hstatus Hjson. unfold save_context_try.
  rewrite Hsend. cbn [mbind result_bind].
  rewrite bool_decide_eq_true_2 by (by apply in_200_201).
  cbn [negb]. rewrite Hjson. reflexivity.
Qed.

(** C1 (code defect).  The claim wants an upstream failure on [save]
    relayed under the upstream's own status code.  The handler does raise
    such an [HTTPException], but inside its own [try], whose last clause
    catches every [Exception] and raises a fresh one with status 500: an
    upstream 503 reaches the caller as a 500 whose detail wraps [str] of
    the exception that was caught. *)
Theorem save_upstream_503_is_replied_as_500 context utcnow body decoded :
  send (save_request cfg context utcnow)
    = Return {| status_code := 503; text := body; json := decoded |} ->
  respond (save_context cfg http_exception_str send context utcnow) =
  {| reply_status := 500;
     reply_body :=
       JObj [("detail",
              JStr ("Error saving context: " +:+
                    http_exception_str 503 ("Failed to save context: " +:+ body)))] |}.
Proof.
  intros Hsend.
  rewrite (save_context_upstream_failure _ _ _ Hsend) by done.
  reflexivity.
Qed.

(** C3 (amended).  When the upstream answers 200 or 201 with a JSON body
    that is not the empty array, [save] returns the success envelope whose
    [data] is the first element of the body if the body is an array and the
    body itself otherwise, and the caller gets it with status 200. *)
Theorem save_success_envelope context utcnow r body :
  send (save_request cfg context utcnow) = Return r ->
  status_code r = 200 \/ status_code r = 201 ->
  json r = Return body ->
  body <> JArr [] ->
  save_context cfg http_exception_str send context utcnow =
    Return (saved_envelope match body with
                           | JArr (first :: _) => first
                           | _ => body
                           end)
  /\ reply_status (respond (save_context cfg http_exception_str send context utcnow)) = 200.
Proof.
  intros Hsend Hstatus Hjson Hne.
  assert (save_context cfg http_exception_str send context utcnow =
          Return (saved_envelope match body with
                                 | JArr (first :: _) => first
                                 | _ => body
                                 end)) as Heq.
  { unfold save_context.
    rewrite (save_context_success_body _ _ _ _ Hsend Hstatus Hjson).
    destruct body as [| | | | |[|first rest]|]; try reflexivity.
    by destruct Hne. }
  by rewrite Heq.
Qed.

(** C9.  A 200 or 201 answer whose body is the empty array makes
    [result[0]] raise [IndexError]; the handler turns it into a 500 and no
    success envelope is returned. *)
Theorem save_empty_array_is_500 context utcnow r :
  send (save_request cfg context utcnow) = Return r ->
  status_code r = 200 \/ status_code r = 201 ->
  json r = Return (JArr []) ->
  save_context cfg http_exception_str send context utcnow =
    Raise (HTTPException 500 "Error saving context: list index out of range")
  /\ reply_status (respond (save_context cfg http_exception_str send context utcnow)) = 500
  /\ forall data,
       save_context cfg http_exception_str send context utcnow <> Return (saved_envelope data).
Proof.
  intros Hsend Hstatus Hjson.
  assert (save_context cfg http_exception_str send context utcnow =
          Raise (HTTPException 500 "Error saving context: list index out of range"))
    as Heq.
  { unfold save_context.
    by rewrite (save_context_success_body _ _ _ _ Hsend Hstatus Hjson). }
  rewrite Heq. by repeat split.
Qed.

(** The handler looks at the network through the one request it builds. *)
Lemma save_context_one_request (send' : transport) context utcnow :
  send (save_request cfg context utcnow) = send' (save_request cfg context utcnow) ->
  save_context cfg http_exception_str send context utcnow =
  save_context cfg http_exception_str send' context utcnow.
Proof.
  intros Heq. unfold save_context, save_context_try. by rewrite Heq.
Qed.

End SaveContext.

(** ** [GET /vault/context] *)

Section QueryString.

Implicit Types (user_id context_type : option string) (limit : Z) (v s t : string).

Lemma list_ascii_app s t :
  String.list_ascii_of_string (s +:+ t) =
  String.list_ascii_of_string s ++ String.list_ascii_of_string t.
Proof. induction s as [|a s IH]; simpl; [done | by rewrite IH]. Qed.

Lemma has_char_app c s t : has_char c (s +:+ t) = has_char c s || has_char c t.
Proof.
  unfold has_char. rewrite list_ascii_app.
  apply eq_true_iff_eq.
  rewrite orb_true_iff, !bool_decide_eq_true, elem_of_app. done.
Qed.

Lemma digits_no_amp (n : N) : has_char "&" (digits n) = false.
Proof.
  unfold has_char. apply bool_decide_eq_false. intros Hin.
  pose proof (digits_all_digit n) as Hall.
  rewrite Forall_forall in Hall. by apply Hall in Hin.
Qed.

Lemma str_int_no_amp limit : has_char "&" (str_int limit) = false.
Proof.
  destruct limit as [|p|p]; simpl; [done | apply digits_no_amp |].
  change (String "-" (digits (N.pos p))) with ("-" +:+ digits (N.pos p)).
  by rewrite has_char_app, digits_no_amp.
Qed.

Lemma split_join_id c (parts : list string) :
  parts <> [] ->
  Forall (fun p => has_char c p = false) parts ->
  split_on c (join (String c "") parts) = parts.
Proof.
  intros Hne Hall. rewrite split_on_join by done. clear Hne.
  induction Hall as [|p parts Hp _ IH]; [done |].
  simpl. by rewrite (split_on_absent _ _ Hp), IH.
Qed.

Lemma join_occurs sep (parts : list string) part :
  part ∈ parts -> occurs_in part (join sep parts).
Proof.
  induction parts as [|p parts IH]; [by intros ?%elem_of_nil |].
  intros [-> | Hin]%elem_of_cons.
  - destruct parts; [apply occurs_in_refl |].
    apply occurs_in_app_l, occurs_in_refl.
  - destruct parts as [|q parts]; [by apply elem_of_nil in Hin |].
    change (join sep (p :: q :: parts)) with (p +:+ sep +:+ join sep (q :: parts)).
    by apply occurs_in_app_r, occurs_in_app_r, IH.
Qed.

Lemma truthy_Some o : truthy o = true <-> exists v, o = Some v /\ v <> "".
Proof.
  destruct o as [v|]; simpl.
  - rewrite bool_decide_eq_true. split.
    + intros Hv. by exists v.
    + by intros (w & [= ->] & Hw).
  - split; [done | by intros (w & ? & _)].
Qed.

Lemma build_filters_cases user_id context_type :
  build_filters user_id context_type =
  (if truthy user_id then ["user_id=eq." +:+ format_opt user_id] else [])
  ++ (if truthy context_type then ["context_type=eq." +:+ format_opt context_type] else []).
Proof. reflexivity. Qed.

Lemma user_filter_in_parts user_id context_type limit v :
  "user_id=eq." +:+ v ∈ query_parts user_id context_type limit
  <-> user_id = Some v /\ v <> "".
Proof.
  unfold query_parts. rewrite build_filters_cases.
  rewrite !elem_of_app, !elem_of_cons, elem_of_nil. split.
  - intros [[Hu | Hc] | [Hl | [Ho | []]]]; try (simpl in *; discriminate).
    + destruct (truthy user_id) eqn:Ht.
      * apply truthy_Some in Ht as (w & -> & Hw).
        apply list_elem_of_singleton in Hu. simpl in Hu.
        injection Hu as ->. by split.
      * by apply elem_of_nil in Hu.
    + destruct (truthy context_type).
      * apply list_elem_of_singleton in Hc. simpl in Hc. discriminate.
      * by apply elem_of_nil in Hc.
  - intros [-> Hv]. left. left.
    simpl. rewrite bool_decide_eq_true_2 by done. by apply list_elem_of_singleton.
Qed.

Lemma type_filter_in_parts user_id context_type limit v :
  "context_type=eq." +:+ v ∈ query_parts user_id context_type limit
  <-> context_type = Some v /\ v <> "".
Proof.
  unfold query_parts. rewrite build_filters_cases.
  rewrite !elem_of_app, !elem_of_cons, elem_of_nil. split.
  - intros [[Hu | Hc] | [Hl | [Ho | []]]]; try (simpl in *; discriminate).
    + destruct (truthy user_id).
      * apply list_elem_of_singleton in Hu. simpl in Hu. discriminate.
      * by apply elem_of_nil in Hu.
    + destruct (truthy context_type) eqn:Ht.
      * apply truthy_Some in Ht as (w & -> & Hw).
        apply list_elem_of_singleton in Hc. simpl in Hc.
        injection Hc as ->. by split.
      * by apply elem_of_nil in Hc.
  - intros [-> Hv]. left. right.
    simpl. rewrite bool_decide_eq_true_2 by done. by apply list_elem_of_singleton.
Qed.

Lemma get_url_query cfg user_id context_type limit :
  get_url cfg user_id context_type limit =
  table_url cfg +:+ "?" +:+ query_string user_id context_type limit.
Proof.
  unfold get_url, query_string, query_parts.
  destruct (build_filters user_id context_type); reflexivity.
Qed.

Lemma query_parts_nonempty user_id context_type limit :
  query_parts user_id context_type limit <> [].
Proof.
  unfold query_parts. by destruct (build_filters user_id context_type).
Qed.

(** Without an ampersand in the supplied values, the parts the handler
    joins are the parameters the upstream reads. *)
Lemma query_parameters_parts user_id context_type limit :
  (forall v, user_id = Some v -> has_char "&" v = false) ->
  (forall v, context_type = Some v -> has_char "&" v = false) ->
  query_parameters (query_string user_id context_type limit)
  = query_parts user_id context_type limit.
Proof.
  intros Hu Hc. unfold query_parameters, query_string.
  apply split_join_id; [apply query_parts_nonempty |].
  unfold query_parts. rewrite build_filters_cases.
  repeat apply Forall_app_2.
  - destruct (truthy user_id) eqn:Ht; [| constructor].
    apply truthy_Some in Ht as (w & -> & _).
    repeat constructor. cbn [format_opt].
    rewrite has_char_app. rewrite (Hu w) by done. done.
  - destruct (truthy context_type) eqn:Ht; [| constructor].
    apply truthy_Some in Ht as (w & -> & _).
    repeat constructor. cbn [format_opt].
    rewrite has_char_app. rewrite (Hc w) by done. done.
  - repeat constructor. by rewrite has_char_app, str_int_no_amp.
Qed.

End QueryString.

(** ** [isoformat] reads back as the clock reading *)

Section IsoParse.

Local Open Scope N_scope.

Lemma fixed_width_chars_length w n :
  length (String.list_ascii_of_string (fixed_width w n)) = w.
Proof.
  revert n. induction w as [|w IH]; intros n; [done |].
  rewrite fixed_width_S, list_ascii_app, length_app, IH. simpl. lia.
Qed.

Lemma fixed_width_value w n :
  fold_left (fun acc c => 10 * acc + digit_val c)
    (String.list_ascii_of_string (fixed_width w n)) 0
  = n mod 10 ^ N.of_nat w.
Proof.
  revert n. induction w as [|w IH]; intros n.
  - simpl. by rewrite N.mod_1_r.
  - rewrite fixed_width_S, list_ascii_app, fold_left_app, IH. simpl.
    rewrite digit_val_digit_char by apply mod_10_lt.
    rewrite Nat2N.inj_succ, N.pow_succ_r', N.Div0.mod_mul_r. lia.
Qed.

Lemma number_fixed_width w n :
  n < 10 ^ N.of_nat w ->
  number (String.list_ascii_of_string (fixed_width w n)) = Some n.
Proof.
  intros Hn. unfold number.
  by rewrite fixed_width_all_digit, fixed_width_value, N.mod_small.
Qed.

Lemma number_two n :
  n < 100 -> number [digit_char (n / 10 mod 10); digit_char (n mod 10)] = Some n.
Proof. intros Hn. by apply (number_fixed_width 2 n). Qed.

Lemma number_four n :
  n < 10000 ->
  number [digit_char (n / 10 / 10 / 10 mod 10); digit_char (n / 10 / 10 mod 10);
          digit_char (n / 10 mod 10); digit_char (n mod 10)] = Some n.
Proof. intros Hn. by apply (number_fixed_width 4 n). Qed.

Lemma leading_digits_all (l : list ascii) :
  forallb is_digit l = true -> leading_digits l = (l, []).
Proof.
  induction l as [|c l IH]; [done |].
  simpl. intros [-> Hl]%andb_true_iff. by rewrite IH.
Qed.

Lemma parse_fraction_isoformat us :
  us <= 999999 ->
  parse_fraction (String.list_ascii_of_string
                    (if us =? 0 then ""%string else "." +:+ zero_pad 6 us))
  = Some (us, []).
Proof.
  intros Hus. destruct (N.eqb_spec us 0) as [-> | Hne]; [done |].
  rewrite (zero_pad_fixed_width 5) by (change (10 ^ N.of_nat 6) with 1000000; lia).
  change (String.list_ascii_of_string ("." +:+ fixed_width 6 us))
    with ("."%char :: String.list_ascii_of_string (fixed_width 6 us)).
  cbn [parse_fraction]. rewrite Ascii.eqb_refl.
  rewrite leading_digits_all by apply fixed_width_all_digit.
  rewrite fixed_width_chars_length.
  rewrite number_fixed_width by (change (10 ^ N.of_nat 6) with 1000000; lia).
  simpl. by rewrite N.mul_1_r.
Qed.

(** What [isoformat] prints is a timestamp of the calendar that names no
    zone and whose fields are the ones that were printed. *)
Lemma parse_isoformat t :
  valid_datetime t = true -> parse_iso8601 (isoformat t) = Some (t, Naive).
Proof.
  intros Hvalid.
  pose proof (valid_datetime_ranges t Hvalid) as (Hy & Hmo & Hd & Hh & Hmi & Hs & Hus).
  pose proof (parse_fraction_isoformat (microsecond t) Hus) as Hfrac.
  unfold isoformat.
  rewrite (zero_pad_fixed_width 3 (year t)) by (change (10 ^ N.of_nat 4) with 10000; lia).
  rewrite !(zero_pad_fixed_width 1) by (change (10 ^ N.of_nat 2) with 100; lia).
  rewrite !fixed_width_2, fixed_width_4.
  revert Hfrac.
  generalize (if microsecond t =? 0 then ""%string
              else "." +:+ zero_pad 6 (microsecond t)). intros frac Hfrac.
  unfold parse_iso8601. cbn [String.append String.list_ascii_of_string].
  rewrite !Ascii.eqb_refl. cbn [andb].
  rewrite number_four by lia. cbn [mbind option_bind].
  rewrite !number_two by lia. cbn [mbind option_bind].
  rewrite Hfrac. cbn [mbind option_bind parse_zone].
  destruct t. cbn in *. by rewrite Hvalid.
Qed.

End IsoParse.

(** ** What [save] forwards *)

Section Forwarding.

Variable cfg : config.
Variable http_exception_str : Z -> string -> string.

Implicit Types (context : ContextData) (utcnow : datetime).

(** The handler sends [save_request] and nothing else: its outcome follows
    the transport's answer to that request alone. *)
Lemma save_context_forwards context utcnow :
  forwards (fun send => save_context cfg http_exception_str send context utcnow)
           (save_request cfg context utcnow).
Proof.
  split.
  - intros send send' Heq. by apply save_context_one_request.
  - exists (always created_response), (failing (HTTPError "")).
    unfold save_context, save_context_try, always, failing. cbn. discriminate.
Qed.

(** Against the echoing store the handler hands back, as [data], the very
    payload it sent. *)
Lemma save_context_echo context utcnow :
  save_context cfg http_exception_str echo_store context utcnow
  = Return (saved_envelope (JObj (save_payload context utcnow))).
Proof. reflexivity. Qed.

(** C4.  For every record the caller submits, [save] forwards upstream a
    request whose payload carries [created_at]: the text [isoformat] prints
    for the service's own UTC clock reading.  That text is a timestamp of
    the ISO-8601 calendar whose fields are the clock reading (it names no
    zone), and it is the same whatever the caller submitted. *)
Theorem save_stamps_created_at context utcnow :
  valid_datetime utcnow = true ->
  forwards (fun send => save_context cfg http_exception_str send context utcnow)
           (save_request cfg context utcnow)
  /\ (exists payload,
        json_body (save_request cfg context utcnow) = Some payload
        /\ save_context cfg http_exception_str echo_store context utcnow
           = Return (saved_envelope (JObj payload))
        /\ dict_get "created_at" payload = Some (JStr (isoformat utcnow)))
  /\ parse_iso8601 (isoformat utcnow) = Some (utcnow, Naive)
  /\ is_iso8601 (isoformat utcnow) = true
  /\ forall context' payload',
       json_body (save_request cfg context' utcnow) = Some payload' ->
       dict_get "created_at" payload' = Some (JStr (isoformat utcnow)).
Proof.
  intros Hvalid.
  split; [apply save_context_forwards |].
  split; [exists (save_payload context utcnow); by rewrite save_context_echo |].
  split; [by apply parse_isoformat |].
  split; [by apply isoformat_is_iso8601 |].
  by intros context' payload' [= <-].
Qed.

(** C6.  With [metadata] left out (or null), the payload of the request
    [save] forwards upstream has [metadata] equal to the empty object; and
    whatever the caller submits, the forwarded [metadata] is an object,
    never null. *)
Theorem save_defaults_metadata context utcnow :
  metadata context = None ->
  forwards (fun send => save_context cfg http_exception_str send context utcnow)
           (save_request cfg context utcnow)
  /\ (exists payload,
        json_body (save_request cfg context utcnow) = Some payload
        /\ save_context cfg http_exception_str echo_store context utcnow
           = Return (saved_envelope (JObj payload))
        /\ dict_get "metadata" payload = Some (JObj []))
  /\ forall context' utcnow' payload',
       json_body (save_request cfg context' utcnow') = Some payload' ->
       dict_get "metadata" payload' <> Some JNull
       /\ exists fields, dict_get "metadata" payload' = Some (JObj fields).
Proof.
  intros Hnone.
  split; [apply save_context_forwards |].
  split.
  - exists (save_payload context utcnow). rewrite save_context_echo.
    repeat split. unfold save_payload. by rewrite Hnone.
  - intros context' utcnow' payload' [= <-]. split; [done |].
    by eexists.
Qed.

End Forwarding.

Section SplitCount.

Lemma split_on_length_ge c s : (1 <= length (split_on c s))%nat.
Proof.
  pose proof (split_on_nonempty c s). destruct (split_on c s); [done | simpl; lia].
Qed.

Lemma split_on_length_sep c s :
  has_char c s = true -> (2 <= length (split_on c s))%nat.
Proof.
  unfold has_char. rewrite bool_decide_eq_true.
  induction s as [|a s IH]; simpl; [by intros ?%elem_of_nil |].
  intros [-> | Hin]%elem_of_cons.
  - rewrite bool_decide_eq_true_2 by done.
    pose proof (split_on_length_ge a s). simpl. lia.
  - specialize (IH Hin). case_bool_decide; [simpl; lia |].
    destruct (split_on c s); simpl in *; lia.
Qed.

Lemma concat_split_length c (parts : list string) :
  (length parts <= length (concat (map (split_on c) parts)))%nat.
Proof.
  induction parts as [|p parts IH]; [done |].
  simpl. rewrite length_app. pose proof (split_on_length_ge c p). lia.
Qed.

Lemma concat_split_length_sep c (parts : list string) p :
  p ∈ parts -> has_char c p = true ->
  (length parts < length (concat (map (split_on c) parts)))%nat.
Proof.
  intros Hin Hp. induction parts as [|q parts IH]; [by apply elem_of_nil in Hin |].
  simpl. rewrite length_app.
  apply elem_of_cons in Hin as [<- | Hin].
  - pose proof (split_on_length_sep c p Hp).
    pose proof (concat_split_length c parts). lia.
  - specialize (IH Hin). pose proof (split_on_length_ge c q). lia.
Qed.

End SplitCount.

Section GetContext.

Variable cfg : config.
Variable http_exception_str : Z -> string -> string.

Implicit Types (user_id context_type : option string) (limit : Z).
Implicit Types (send : transport) (r : response).

(** C2 (amended).  The query string is what follows the question mark in
    the URL: the parts the handler joins with ampersands.  Among these
    parts, [user_id=eq.<v>] is present exactly when [user_id] was supplied
    with a non-empty value, likewise [context_type=eq.<v>]; the [limit] and
    [order] parts are always there; every part occurs in the query string;
    and when no supplied value contains an ampersand the parts are exactly
    the parameters the upstream reads. *)
Theorem query_string_contents user_id context_type limit :
  get_url cfg user_id context_type limit
    = table_url cfg +:+ "?" +:+ query_string user_id context_type limit
  /\ (forall v, "user_id=eq." +:+ v ∈ query_parts user_id context_type limit
                <-> user_id = Some v /\ v <> "")
  /\ (forall v, "context_type=eq." +:+ v ∈ query_parts user_id context_type limit
                <-> context_type = Some v /\ v <> "")
  /\ "limit=" +:+ str_int limit ∈ query_parts user_id context_type limit
  /\ "order=created_at.desc" ∈ query_parts user_id context_type limit
  /\ (forall part, part ∈ query_parts user_id context_type limit ->
                   occurs_in part (query_string user_id context_type limit))
  /\ ((forall v, user_id = Some v -> has_char "&" v = false) ->
      (forall v, context_type = Some v -> has_char "&" v = false) ->
      query_parameters (query_string user_id context_type limit)
      = query_parts user_id context_type limit).
Proof.
  split; [apply get_url_query |].
  split; [intros v; apply user_filter_in_parts |].
  split; [intros v; apply type_filter_in_parts |].
  split; [| split; [| split]].
  - unfold query_parts. apply elem_of_app. right. apply list_elem_of_here.
  - unfold query_parts. apply elem_of_app. right.
    apply list_elem_of_further, list_elem_of_here.
  - intros part Hin. by apply join_occurs.
  - apply query_parameters_parts.
Qed.

(** C5.  On an upstream 200 with an array body the handler returns the
    envelope with that very array as [data] and its length as [count]. *)
Theorem query_success_envelope send user_id context_type limit r records :
  send (get_request cfg user_id context_type limit) = Return r ->
  status_code r = 200 ->
  json r = Return (JArr records) ->
  get_context cfg http_exception_str send user_id context_type limit
    = Return (JObj [("success", JBool true);
                    ("count", JInt (Z.of_nat (length records)));
                    ("data", JArr records)])
  /\ respond (get_context cfg http_exception_str send user_id context_type limit)
     = {| reply_status := 200; reply_body := query_envelope records |}.
Proof.
  intros Hsend Hstatus Hjson.
  assert (get_context cfg http_exception_str send user_id context_type limit
          = Return (query_envelope records)) as Heq.
  { unfold get_context, get_context_try.
    rewrite Hsend. cbn [mbind result_bind].
    rewrite bool_decide_eq_true_2 by done. cbn [negb].
    rewrite Hjson. reflexivity. }
  by rewrite Heq.
Qed.

(** C8.  Two identical queries whose upstream calls come back the same
    get the same reply, whatever the clock says and whatever the upstream
    would have answered to other requests. *)
Theorem query_is_deterministic send1 send2 utcnow1 utcnow2 user_id context_type limit :
  send1 (get_request cfg user_id context_type limit)
    = send2 (get_request cfg user_id context_type limit) ->
  handle cfg http_exception_str send1 utcnow1 (GetContext user_id context_type limit)
  = handle cfg http_exception_str send2 utcnow2 (GetContext user_id context_type limit).
Proof.
  intros Heq. unfold handle, get_context, get_context_try. by rewrite Heq.
Qed.

Lemma filter_occurs_in_url user_id context_type limit part :
  part ∈ query_parts user_id context_type limit ->
  occurs_in part (get_url cfg user_id context_type limit).
Proof.
  intros Hin. rewrite get_url_query.
  by apply occurs_in_app_r, occurs_in_app_r, join_occurs.
Qed.

Lemma value_occurs_in_url user_id context_type limit prefix v :
  prefix +:+ v ∈ query_parts user_id context_type limit ->
  occurs_in v (get_url cfg user_id context_type limit).
Proof.
  intros Hin. eapply occurs_in_trans; [| by apply filter_occurs_in_url].
  apply occurs_in_app_r, occurs_in_refl.
Qed.

Lemma injected_parameter user_id context_type limit prefix before injected :
  prefix +:+ before +:+ "&" +:+ injected ∈ query_parts user_id context_type limit ->
  has_char "&" injected = false ->
  injected ∈ query_parameters (query_string user_id context_type limit).
Proof.
  intros Hin Hinj. unfold query_parameters, query_string.
  rewrite split_on_join by apply query_parts_nonempty.
  apply list_elem_of_In, in_concat.
  exists (split_on "&" (prefix +:+ before +:+ "&" +:+ injected)). split.
  - apply in_map. by apply list_elem_of_In.
  - rewrite <- str_app_assoc. by apply split_on_last.
Qed.

(** C10 (amended).  A supplied filter value is copied into the URL as it
    is: the URL contains it character for character, and a non-empty one
    sits right behind its [field=eq.] prefix.  Nothing is escaped, so a
    value with an ampersand adds upstream query parameters: the parameters
    the upstream reads are the pieces of the joined parts, there are more
    of them than parts, and the text behind the value's last ampersand is
    a parameter of its own. *)
Theorem filters_are_interpolated_verbatim user_id context_type limit :
  (forall v, user_id = Some v \/ context_type = Some v ->
             occurs_in v (get_url cfg user_id context_type limit))
  /\ (forall v, user_id = Some v -> v <> "" ->
                occurs_in ("user_id=eq." +:+ v) (get_url cfg user_id context_type limit))
  /\ (forall v, context_type = Some v -> v <> "" ->
                occurs_in ("context_type=eq." +:+ v) (get_url cfg user_id context_type limit))
  /\ query_parameters (query_string user_id context_type limit)
     = concat (map query_parameters (query_parts user_id context_type limit))
  /\ (forall v, user_id = Some v \/ context_type = Some v ->
                has_char "&" v = true ->
                (length (query_parts user_id context_type limit)
                 < length (query_parameters (query_string user_id context_type limit)))%nat)
  /\ (forall before injected,
        user_id = Some (before +:+ "&" +:+ injected)
        \/ context_type = Some (before +:+ "&" +:+ injected) ->
        has_char "&" injected = false ->
        injected ∈ query_parameters (query_string user_id context_type limit)).
Proof.
  assert (forall v, v <> "" ->
            (user_id = Some v -> "user_id=eq." +:+ v ∈ query_parts user_id context_type limit)
            /\ (context_type = Some v ->
                "context_type=eq." +:+ v ∈ query_parts user_id context_type limit))
    as Hparts.
  { intros v Hv. split; intros ->.
    - by apply user_filter_in_parts.
    - by apply type_filter_in_parts. }
  assert (query_parameters (query_string user_id context_type limit)
          = concat (map query_parameters (query_parts user_id context_type limit)))
    as Hsplit.
  { unfold query_parameters, query_string.
    apply split_on_join, query_parts_nonempty. }
  split; [| split; [| split; [| split; [done | split]]]].
  - intros v Hv. destruct (decide (v = "")) as [-> | Hne]; [apply occurs_in_empty |].
    destruct (Hparts v Hne) as [Hu Hc].
    destruct Hv as [Hv | Hv]; eapply value_occurs_in_url; eauto.
  - intros v Hv Hne. apply filter_occurs_in_url. by apply Hparts.
  - intros v Hv Hne. apply filter_occurs_in_url. by apply Hparts.
  - intros v Hv Hamp. rewrite Hsplit.
    assert (v <> "") as Hne by (by intros ->).
    destruct (Hparts v Hne) as [Hu Hc].
    destruct Hv as [Hv | Hv].
    + eapply (concat_split_length_sep _ _ _ (Hu Hv)).
      by rewrite has_char_app, Hamp, orb_true_r.
    + eapply (concat_split_length_sep _ _ _ (Hc Hv)).
      by rewrite has_char_app, Hamp, orb_true_r.
  - intros before injected Hv Hinj.
    assert (before +:+ "&" +:+ injected <> "") as Hne by (by destruct before).
    destruct (Hparts _ Hne) as [Hu Hc].
    destruct Hv as [Hv | Hv]; eapply injected_parameter; eauto.
Qed.

End GetContext.

(** ** Start-up *)

Section Startup.

Implicit Types (environ : gmap string string).

Lemma load_settings_ok environ url key :
  environ !! "SUPABASE_URL" = Some url ->
  environ !! "SUPABASE_SERVICE_KEY" = Some key ->
  url <> "" -> key <> "" ->
  load_settings environ
  = Return {| SUPABASE_URL := url; SUPABASE_SERVICE_KEY := key |}.
Proof.
  intros Hu Hk Hune Hkne. unfold load_settings. rewrite Hu, Hk. simpl.
  by rewrite !bool_decide_eq_true_2.
Qed.

Lemma load_settings_raises environ name :
  name ∈ ["SUPABASE_URL"; "SUPABASE_SERVICE_KEY"] ->
  environ !! name = None \/ environ !! name = Some "" ->
  load_settings environ
  = Raise (ValueError "SUPABASE_URL and SUPABASE_SERVICE_KEY must be set").
Proof.
  intros Hname Hbad.
  assert (truthy (environ !! name) = false) as Hfalse
    by (by destruct Hbad as [-> | ->]).
  unfold load_settings.
  apply elem_of_cons in Hname as [-> | Hname].
  - by rewrite Hfalse.
  - apply list_elem_of_singleton in Hname as ->.
    by rewrite Hfalse, orb_true_r.
Qed.

(** C7 (amended).  A setting that is unset or empty makes the import raise
    [ValueError]: the process is down and answers no call.  With both
    settings present and non-empty the process serves, one reply per
    call. *)
Theorem startup_needs_both_settings environ :
  (forall name,
      name ∈ ["SUPABASE_URL"; "SUPABASE_SERVICE_KEY"] ->
      environ !! name = None \/ environ !! name = Some "" ->
      start environ = Crashed (ValueError "SUPABASE_URL and SUPABASE_SERVICE_KEY must be set")
      /\ forall http_exception_str send calls,
           serve (start environ) http_exception_str send calls = [])
  /\ (forall url key,
        environ !! "SUPABASE_URL" = Some url ->
        environ !! "SUPABASE_SERVICE_KEY" = Some key ->
        url <> "" -> key <> "" ->
        start environ = Serving {| SUPABASE_URL := url; SUPABASE_SERVICE_KEY := key |}
        /\ forall http_exception_str send calls,
             length (serve (start environ) http_exception_str send calls) = length calls).
Proof.
  split.
  - intros name Hname Hbad. unfold start.
    by rewrite (load_settings_raises _ _ Hname Hbad).
  - intros url key Hu Hk Hune Hkne. unfold start.
    rewrite (load_settings_ok _ _ _ Hu Hk Hune Hkne). split; [done |].
    intros. unfold serve. by rewrite length_map.
Qed.

End Startup.

(** ** The properties on concrete calls *)

Lemma save_upstream_503_witness :
  respond (save_context sample_cfg starlette_str (always unavailable_response)
             sample_context sample_time)
  = {| reply_status := 500;
       reply_body :=
         JObj [("detail",
                JStr "Error saving context: 503: Failed to save context: upstream unavailable")] |}.
Proof.
  apply (save_upstream_503_is_replied_as_500 sample_cfg starlette_str
           (always unavailable_response) sample_context sample_time
           "upstream unavailable"
           (Raise (ValueError "Expecting value: line 1 column 1 (char 0)"))).
  reflexivity.
Defined.

(** The claim of C2 fails for a [user_id] that is supplied but empty: the
    handler drops the filter. *)
Lemma empty_user_id_is_dropped :
  query_string (Some "") None 10 = "limit=10&order=created_at.desc"
  /\ ~ occurs_in ("user_id=eq." +:+ "") (query_string (Some "") None 10).
Proof.
  split; [reflexivity |].
  intros Hin. apply occurs_inb_spec in Hin. vm_compute in Hin. discriminate.
Qed.

Lemma query_string_contents_witness :
  get_url sample_cfg (Some "u1") None 5
    = "https://vault.example.co/rest/v1/context_vault?user_id=eq.u1&limit=5&order=created_at.desc"
  /\ "user_id=eq.u1" ∈ query_parts (Some "u1") None 5
  /\ query_parameters (query_string (Some "u1") None 5)
     = ["user_id=eq.u1"; "limit=5"; "order=created_at.desc"].
Proof.
  destruct (query_string_contents sample_cfg (Some "u1") None 5)
    as (Hurl & Huser & _ & _ & _ & _ & Hparams).
  split; [rewrite Hurl; reflexivity |].
  split.
  - apply (Huser "u1"). split; [reflexivity | discriminate].
  - rewrite Hparams; [reflexivity | |].
    + intros v [= <-]. reflexivity.
    + intros v [=].
Defined.

(** The claim of C3 fails on a 201 whose body is the empty array. *)
Lemma save_empty_array_no_envelope :
  status_code empty_created_response = 201
  /\ json empty_created_response = Return (JArr [])
  /\ ~ exists data,
        save_context sample_cfg starlette_str (always empty_created_response)
          sample_context sample_time
        = Return (saved_envelope data).
Proof.
  split; [reflexivity | split; [reflexivity |]].
  intros (data & Hdata). vm_compute in Hdata. discriminate.
Qed.

Lemma save_success_envelope_witness :
  save_context sample_cfg starlette_str (always created_response)
    sample_context sample_time
  = Return (saved_envelope sample_row)
  /\ reply_status (respond (save_context sample_cfg starlette_str (always created_response)
                              sample_context sample_time)) = 200.
Proof.
  apply (save_success_envelope sample_cfg starlette_str (always created_response)
           sample_context sample_time created_response (JArr [sample_row])).
  - reflexivity.
  - right. reflexivity.
  - reflexivity.
  - discriminate.
Defined.

Lemma save_stamps_created_at_witness :
  save_context sample_cfg starlette_str echo_store tagged_context sample_time
  = Return (saved_envelope
              (JObj [("user_id", JStr "u2");
                     ("context_type", JStr "prefs");
                     ("context_data", JObj [("created_at", JStr "1999-01-01T00:00:00");
                                            ("theme", JStr "dark")]);
                     ("metadata", JObj [("source", JStr "mobile")]);
                     ("created_at", JStr "2024-02-29T09:05:00.000120")]))
  /\ parse_iso8601 "2024-02-29T09:05:00.000120" = Some (sample_time, Naive).
Proof.
  destruct (save_stamps_created_at sample_cfg starlette_str tagged_context sample_time)
    as (_ & (payload & Hbody & Hecho & _) & Hparse & _); [reflexivity |].
  injection Hbody as <-.
  split; [exact Hecho | exact Hparse].
Defined.

Lemma query_success_envelope_witness :
  respond (get_context sample_cfg starlette_str (always rows_response) (Some "u1") None 5)
  = {| reply_status := 200;
       reply_body := JObj [("success", JBool true);
                           ("count", JInt 3);
                           ("data", JArr [sample_row; sample_row; JNull])] |}.
Proof.
  apply (query_success_envelope sample_cfg starlette_str (always rows_response)
           (Some "u1") None 5 rows_response [sample_row; sample_row; JNull]);
    reflexivity.
Defined.

Lemma save_defaults_metadata_witness :
  exists payload,
    json_body (save_request sample_cfg sample_context sample_time) = Some payload
    /\ save_context sample_cfg starlette_str echo_store sample_context sample_time
       = Return (saved_envelope (JObj payload))
    /\ dict_get "metadata" payload = Some (JObj []).
Proof.
  apply (save_defaults_metadata sample_cfg starlette_str sample_context sample_time).
  reflexivity.
Defined.

(** The claim of C7 fails for a setting that is present but empty. *)
Lemma empty_setting_stops_startup :
  is_Some (({["SUPABASE_URL" := ""; "SUPABASE_SERVICE_KEY" := "service-key"]}
            : gmap string string) !! "SUPABASE_URL")
  /\ is_Some (({["SUPABASE_URL" := ""; "SUPABASE_SERVICE_KEY" := "service-key"]}
               : gmap string string) !! "SUPABASE_SERVICE_KEY")
  /\ start {["SUPABASE_URL" := ""; "SUPABASE_SERVICE_KEY" := "service-key"]}
     = Crashed (ValueError "SUPABASE_URL and SUPABASE_SERVICE_KEY must be set").
Proof.
  split; [by eexists | split; [by eexists |]].
  vm_compute. reflexivity.
Qed.

Lemma startup_needs_both_settings_witness :
  start {["SUPABASE_URL" := "https://vault.example.co"]}
    = Crashed (ValueError "SUPABASE_URL and SUPABASE_SERVICE_KEY must be set")
  /\ start {["SUPABASE_URL" := "https://vault.example.co";
             "SUPABASE_SERVICE_KEY" := "service-key"]}
     = Serving sample_cfg.
Proof.
  split.
  - apply (startup_needs_both_settings {["SUPABASE_URL" := "https://vault.example.co"]})
      with (name := "SUPABASE_SERVICE_KEY").
    + apply list_elem_of_further, list_elem_of_here.
    + left. reflexivity.
  - apply (startup_needs_both_settings
             {["SUPABASE_URL" := "https://vault.example.co";
               "SUPABASE_SERVICE_KEY" := "service-key"]}).
    + reflexivity.
    + reflexivity.
    + discriminate.
    + discriminate.
Defined.

Lemma query_is_deterministic_witness :
  handle sample_cfg starlette_str (always rows_response) sample_time
    (GetContext (Some "u1") None 5)
  = handle sample_cfg starlette_str (read_only rows_response)
      {| year := 2025; month := 1; day := 1;
         hour := 0; minute := 0; second := 0; microsecond := 0 |}
      (GetContext (Some "u1") None 5).
Proof.
  apply (query_is_deterministic sample_cfg starlette_str
           (always rows_response) (read_only rows_response)).
  reflexivity.
Defined.

Lemma save_empty_array_is_500_witness :
  save_context sample_cfg starlette_str (always empty_created_response)
    sample_context sample_time
  = Raise (HTTPException 500 "Error saving context: list index out of range").
Proof.
  apply (save_empty_array_is_500 sample_cfg starlette_str (always empty_created_response)
           sample_context sample_time empty_created_response).
  - reflexivity.
  - right. reflexivity.
  - reflexivity.
Defined.

(** The claim of C10 fails for a value whose only special character is an
    equals sign: it is copied as it is and the upstream still reads three
    parameters. *)
Lemma equals_sign_adds_no_parameter :
  has_char "=" "a=b" = true
  /\ query_parameters (query_string (Some "a=b") None 10)
     = ["user_id=eq.a=b"; "limit=10"; "order=created_at.desc"]
  /\ query_parameters (query_string (Some "a=b") None 10)
     = query_parts (Some "a=b") None 10.
Proof. repeat split. Qed.

Lemma filters_are_interpolated_verbatim_witness :
  occurs_in "u1&limit=1000" (get_url sample_cfg (Some "u1&limit=1000") None 10)
  /\ "limit=1000" ∈ query_parameters (query_string (Some "u1&limit=1000") None 10)
  /\ (length (query_parts (Some "u1&limit=1000") None 10)
      < length (query_parameters (query_string (Some "u1&limit=1000") None 10)))%nat.
Proof.
  destruct (filters_are_interpolated_verbatim sample_cfg (Some "u1&limit=1000") None 10)
    as (Hin & _ & _ & _ & Hmore & Hinj).
  split; [| split].
  - apply Hin. left. reflexivity.
  - apply (Hinj "u1" "limit=1000"); [left |]; reflexivity.
  - apply (Hmore "u1&limit=1000"); [left |]; reflexivity.
Defined.


(** ** Further properties of the handlers *)

Section Failures.

Variable cfg : config.
Variable http_exception_str : Z -> string -> string.
Variable send : transport.

Implicit Types (context : ContextData) (utcnow : datetime) (r : response).
Implicit Types (user_id context_type : option string) (limit : Z).

Lemma get_context_body user_id context_type limit r body :
  send (get_request cfg user_id context_type limit) = Return r ->
  status_code r = 200 ->
  json r = Return body ->
  get_context_try cfg send user_id context_type limit =
  count ← len body;
  Return (JObj [("success", JBool true); ("count", JInt count); ("data", body)]).
Proof.
  intros Hsend Hstatus Hjson. unfold get_context_try.
  rewrite Hsend. cbn [mbind result_bind].
  rewrite bool_decide_eq_true_2 by done. cbn [negb].
  by rewrite Hjson.
Qed.

(** X1.  Whatever status other than 200 and 201 the upstream gives to a
    save, 204 and 3xx included, the caller is answered 500; the upstream
    status and body survive only inside the detail text, through [str] of
    the exception that was caught. *)
Theorem save_failure_is_always_500 context utcnow r :
  send (save_request cfg context utcnow) = Return r ->
  status_code r <> 200 -> status_code r <> 201 ->
  respond (save_context cfg http_exception_str send context utcnow) =
  error_reply 500
    ("Error saving context: " +:+
     http_exception_str (status_code r) ("Failed to save context: " +:+ text r)).
Proof.
  intros Hsend H200 H201.
  by rewrite (save_context_upstream_failure _ _ _ _ _ _ Hsend H200 H201).
Qed.

(** X2.  For a query only status 200 counts as success: any other upstream
    status, 201 and 206 included, is answered 500 with the upstream status
    and body wrapped in the detail text. *)
Theorem query_failure_is_always_500 user_id context_type limit r :
  send (get_request cfg user_id context_type limit) = Return r ->
  status_code r <> 200 ->
  respond (get_context cfg http_exception_str send user_id context_type limit) =
  error_reply 500
    ("Error retrieving context: " +:+
     http_exception_str (status_code r) ("Failed to retrieve context: " +:+ text r)).
Proof.
  intros Hsend H200. unfold get_context, get_context_try.
  rewrite Hsend. cbn [mbind result_bind].
  by rewrite bool_decide_eq_false_2.
Qed.

(** X3.  When the upstream call itself raises, the caller is answered 500:
    with the detail [HTTP error occurred: ...] for an [httpx.HTTPError] and
    with the handler's own prefix for every other exception. *)
Theorem transport_failure_replies context utcnow user_id context_type limit e :
  (send (save_request cfg context utcnow) = Raise e ->
   respond (save_context cfg http_exception_str send context utcnow) =
   error_reply 500
     ((if is_httpx_HTTPError e then "HTTP error occurred: " else "Error saving context: ")
      +:+ str_exn http_exception_str e))
  /\ (send (get_request cfg user_id context_type limit) = Raise e ->
      respond (get_context cfg http_exception_str send user_id context_type limit) =
      error_reply 500
        ((if is_httpx_HTTPError e then "HTTP error occurred: "
          else "Error retrieving context: ")
         +:+ str_exn http_exception_str e)).
Proof.
  split; intros Hsend.
  - unfold save_context, save_context_try. rewrite Hsend. cbn [mbind result_bind].
    by destruct (is_httpx_HTTPError e).
  - unfold get_context, get_context_try. rewrite Hsend. cbn [mbind result_bind].
    by destruct (is_httpx_HTTPError e).
Qed.

(** X4.  Once FastAPI has decoded a request into a call of one of the four
    handlers, the answer has status 200, or status 500 and a [detail] body:
    the handlers themselves produce no other status, whatever the upstream
    returns or raises.  (The 422 FastAPI gives to a request that does not
    decode is decided before any handler runs.) *)
Theorem reply_status_is_200_or_500 utcnow (call : api_call) :
  reply_status (handle cfg http_exception_str send utcnow call) = 200
  \/ exists detail,
       handle cfg http_exception_str send utcnow call = error_reply 500 detail.
Proof.
  destruct call as [|context|user_id context_type limit|]; unfold handle.
  - by left.
  - unfold save_context.
    destruct (save_context_try cfg send context utcnow) as [v|e]; [by left | right].
    destruct (is_httpx_HTTPError e); eexists; reflexivity.
  - unfold get_context.
    destruct (get_context_try cfg send user_id context_type limit) as [v|e];
      [by left | right].
    destruct (is_httpx_HTTPError e); eexists; reflexivity.
  - by left.
Qed.

(** X5.  A query answered 200 with a JSON body that has no length (null, a
    boolean, a number) is answered 500: [len] raises [TypeError]. *)
Theorem query_unsized_body_is_500 user_id context_type limit r body :
  send (get_request cfg user_id context_type limit) = Return r ->
  status_code r = 200 ->
  json r = Return body ->
  unsized body = true ->
  respond (get_context cfg http_exception_str send user_id context_type limit) =
  error_reply 500
    ("Error retrieving context: object of type '" +:+ type_name body +:+ "' has no len()").
Proof.
  intros Hsend Hstatus Hjson Hbody. unfold get_context.
  rewrite (get_context_body _ _ _ _ _ Hsend Hstatus Hjson).
  by destruct body.
Qed.

(** X6.  A query answered 200 with a JSON object or string is relayed as a
    success: [data] is that document and [count] is its number of keys,
    respectively of characters, not a number of records. *)
Theorem query_counts_any_sized_body user_id context_type limit r :
  send (get_request cfg user_id context_type limit) = Return r ->
  status_code r = 200 ->
  (forall fields, json r = Return (JObj fields) ->
     respond (get_context cfg http_exception_str send user_id context_type limit) =
     {| reply_status := 200;
        reply_body := JObj [("success", JBool true);
                            ("count", JInt (Z.of_nat (length fields)));
                            ("data", JObj fields)] |})
  /\ (forall s, json r = Return (JStr s) ->
        respond (get_context cfg http_exception_str send user_id context_type limit) =
        {| reply_status := 200;
           reply_body := JObj [("success", JBool true);
                               ("count", JInt (Z.of_nat (String.length s)));
                               ("data", JStr s)] |}).
Proof.
  intros Hsend Hstatus. split; intros x Hjson; unfold get_context;
    by rewrite (get_context_body _ _ _ _ _ Hsend Hstatus Hjson).
Qed.

(** X7.  A success status with a body that does not decode as JSON is
    answered 500 on both routes, with the decoder's message in the detail. *)
Theorem undecodable_body_is_500 context utcnow user_id context_type limit r message :
  json r = Raise (ValueError message) ->
  (send (save_request cfg context utcnow) = Return r ->
   status_code r = 200 \/ status_code r = 201 ->
   respond (save_context cfg http_exception_str send context utcnow) =
   error_reply 500 ("Error saving context: " +:+ message))
  /\ (send (get_request cfg user_id context_type limit) = Return r ->
      status_code r = 200 ->
      respond (get_context cfg http_exception_str send user_id context_type limit) =
      error_reply 500 ("Error retrieving context: " +:+ message)).
Proof.
  intros Hjson. split.
  - intros Hsend Hstatus. unfold save_context, save_context_try.
    rewrite Hsend. cbn [mbind result_bind].
    rewrite bool_decide_eq_true_2 by (by apply in_200_201). cbn [negb].
    by rewrite Hjson.
  - intros Hsend Hstatus. unfold get_context, get_context_try.
    rewrite Hsend. cbn [mbind result_bind].
    rewrite bool_decide_eq_true_2 by done. cbn [negb].
    by rewrite Hjson.
Qed.

End Failures.

Section Payload.

Variable cfg : config.
Variable http_exception_str : Z -> string -> string.

Implicit Types (context : ContextData) (utcnow : datetime).

(** X8.  The request [save] forwards upstream carries a payload with
    exactly the five fields [user_id], [context_type], [context_data],
    [metadata], [created_at], in this order; the first three are the
    caller's values unchanged, and a [metadata] object the caller supplied,
    empty or not, is forwarded as it is.  The echoing store hands this
    payload back as [data]. *)
Theorem save_forwards_caller_fields context utcnow :
  forwards (fun send => save_context cfg http_exception_str send context utcnow)
           (save_request cfg context utcnow)
  /\ exists payload,
       json_body (save_request cfg context utcnow) = Some payload
       /\ save_context cfg http_exception_str echo_store context utcnow
          = Return (saved_envelope (JObj payload))
       /\ map fst payload
          = ["user_id"; "context_type"; "context_data"; "metadata"; "created_at"]
       /\ dict_get "user_id" payload = Some (JStr (user_id context))
       /\ dict_get "context_type" payload = Some (JStr (context_type context))
       /\ dict_get "context_data" payload = Some (JObj (context_data context))
       /\ forall supplied, metadata context = Some supplied ->
            dict_get "metadata" payload = Some (JObj supplied).
Proof.
  split; [apply save_context_forwards |].
  exists (save_payload context utcnow). rewrite save_context_echo.
  repeat split. intros supplied Hm. unfold save_payload. rewrite Hm.
  by destruct supplied.
Qed.

End Payload.

Section Filters.

Variable cfg : config.

Implicit Types (user_id context_type : option string) (limit : Z).

(** X9.  A filter supplied as the empty string is the same as no filter:
    the request sent upstream is identical. *)
Theorem empty_filter_equals_absent user_id context_type limit :
  get_request cfg (Some "") context_type limit = get_request cfg None context_type limit
  /\ get_request cfg user_id (Some "") limit = get_request cfg user_id None limit.
Proof. split; reflexivity. Qed.

Lemma str_app_cancel_r (s1 s2 t : string) : s1 +:+ t = s2 +:+ t -> s1 = s2.
Proof.
  revert s2. induction s1 as [|a s1 IH]; intros [|b s2] Heq; simpl in Heq.
  - done.
  - apply (f_equal String.length) in Heq. simpl in Heq.
    rewrite str_app_length in Heq. lia.
  - apply (f_equal String.length) in Heq. simpl in Heq.
    rewrite str_app_length in Heq. lia.
  - injection Heq as -> Heq. by rewrite (IH _ Heq).
Qed.

(** The joined parts end with the two fixed parameters. *)
Lemma join_tail (filters : list string) :
  exists head, forall a b,
    join "&" (filters ++ [a; b]) = head +:+ a +:+ "&" +:+ b.
Proof.
  induction filters as [|f filters [head IH]].
  - by exists "".
  - exists (f +:+ "&" +:+ head). intros a b.
    change ((f :: filters) ++ [a; b]) with (f :: (filters ++ [a; b])).
    destruct (filters ++ [a; b]) as [|x rest] eqn:Hrest.
    + by destruct filters.
    + change (join "&" (f :: x :: rest)) with (f +:+ "&" +:+ join "&" (x :: rest)).
      rewrite <- Hrest, IH. by rewrite !str_app_assoc.
Qed.

Lemma join_filters_text (filters : list string) a b :
  join "&" (filters ++ [a; b]) = filters_text filters +:+ a +:+ "&" +:+ b.
Proof.
  induction filters as [|f filters IH]; [done |].
  change ((f :: filters) ++ [a; b]) with (f :: (filters ++ [a; b])).
  destruct (filters ++ [a; b]) as [|x rest] eqn:Hrest; [by destruct filters |].
  change (join "&" (f :: x :: rest)) with (f +:+ "&" +:+ join "&" (x :: rest)).
  rewrite IH.
  change (filters_text (f :: filters)) with (f +:+ "&" +:+ filters_text filters).
  by rewrite !str_app_assoc.
Qed.

(** X10.  The URL of a query is the table URL, a question mark, the
    filters the handler built, each closed by an ampersand, and then
    [limit=<n>&order=created_at.desc]: the service's own two parameters are
    always the last ones, in this order, and [limit=] starts right behind
    the question mark or behind an ampersand. *)
Theorem query_url_shape user_id context_type limit :
  get_url cfg user_id context_type limit
  = table_url cfg +:+ "?" +:+ filters_text (build_filters user_id context_type)
    +:+ "limit=" +:+ str_int limit +:+ "&order=created_at.desc"
  /\ filters_text (build_filters user_id context_type)
     = (if truthy user_id then "user_id=eq." +:+ format_opt user_id +:+ "&" else "")
       +:+ (if truthy context_type
            then "context_type=eq." +:+ format_opt context_type +:+ "&" else "").
Proof.
  split.
  - rewrite get_url_query. unfold query_string, query_parts.
    rewrite join_filters_text. by rewrite !str_app_assoc.
  - unfold build_filters, filters_text.
    destruct (truthy user_id), (truthy context_type); simpl;
      by rewrite ?str_app_nil_r, ?str_app_assoc.
Qed.

(** X11.  With both filters supplied and non-empty the URL reads
    [<table>?user_id=eq.<u>&context_type=eq.<t>&limit=<n>&order=created_at.desc]:
    the user filter always precedes the type filter. *)
Theorem query_url_both_filters u t limit :
  u <> "" -> t <> "" ->
  get_url cfg (Some u) (Some t) limit
  = table_url cfg +:+ "?user_id=eq." +:+ u +:+ "&context_type=eq." +:+ t
    +:+ "&limit=" +:+ str_int limit +:+ "&order=created_at.desc".
Proof.
  intros Hu Ht. unfold get_url, build_filters. simpl truthy.
  rewrite !bool_decide_eq_true_2 by done.
  simpl. by rewrite ?str_app_assoc.
Qed.

End Filters.

Section Limit.

Local Open Scope N_scope.

Lemma N_of_digits_snoc s c :
  N_of_digits (s +:+ String c "") = 10 * N_of_digits s + digit_val c.
Proof.
  unfold N_of_digits. rewrite list_ascii_app, fold_left_app. reflexivity.
Qed.

Lemma N_of_digits_digits n : N_of_digits (digits n) = n.
Proof.
  induction n as [n IH] using (well_founded_induction N.lt_wf_0).
  rewrite digits_eq. destruct (decide (n < 10)) as [Hlt | Hge].
  - unfold N_of_digits. simpl. by rewrite digit_val_digit_char.
  - rewrite N_of_digits_snoc, IH by (apply N.div_lt; lia).
    rewrite digit_val_digit_char by apply mod_10_lt.
    pose proof (N.div_mod n 10). lia.
Qed.

Lemma digits_first n : exists c rest, digits n = String c rest /\ is_digit c = true.
Proof.
  pose proof (digits_all_digit n) as Hall.
  destruct (digits n) as [|c rest] eqn:Hd.
  - exfalso. rewrite digits_eq in Hd.
    destruct (decide (n < 10)); [done |]. by destruct (digits (n / 10)).
  - exists c, rest. split; [done |]. by inversion Hall.
Qed.

Lemma int_of_str_str_int (z : Z) : int_of_str (str_int z) = z.
Proof.
  destruct z as [|p|p]; [done | |].
  - cbn [str_int]. destruct (digits_first (N.pos p)) as (c & rest & Hd & Hc).
    pose proof (N_of_digits_digits (N.pos p)) as Hround. rewrite Hd in *.
    cbn [int_of_str]. rewrite bool_decide_eq_false_2 by (by intros ->).
    by rewrite Hround.
  - cbn [str_int]. simpl. by rewrite N_of_digits_digits.
Qed.

End Limit.

Section LimitInUrl.

Variable cfg : config.

Implicit Types (user_id context_type : option string).

(** X12.  The limit is not bounded or validated: every integer, zero and
    negative ones included, is written into the URL in decimal, and it reads
    back as the same integer.  Hence two queries with the same filters go to
    the same URL only if their limits are equal. *)
Theorem query_url_determines_limit user_id context_type (limit1 limit2 : Z) :
  int_of_str (str_int limit1) = limit1
  /\ (get_url cfg user_id context_type limit1 = get_url cfg user_id context_type limit2 ->
      limit1 = limit2).
Proof.
  split; [apply int_of_str_str_int |].
  rewrite !get_url_query. unfold query_string, query_parts.
  destruct (join_tail (build_filters user_id context_type)) as [head Hhead].
  rewrite (Hhead ("limit=" +:+ str_int limit1)), (Hhead ("limit=" +:+ str_int limit2)).
  intros Heq.
  do 3 apply (inj (String.append _)) in Heq.
  apply str_app_cancel_r in Heq.
  apply (inj (String.append _)) in Heq.
  rewrite <- (int_of_str_str_int limit1), <- (int_of_str_str_int limit2).
  by rewrite Heq.
Qed.

End LimitInUrl.

Section Shallow.

Variable cfg : config.
Variable http_exception_str : Z -> string -> string.

(** X13.  The root and health routes never consult the upstream: under any
    two transports, a dead one included, they give the same reply, which has
    status 200; the health timestamp is the ISO-8601 rendering of the
    clock. *)
Theorem root_and_health_are_local (send send' : transport) utcnow :
  valid_datetime utcnow = true ->
  handle cfg http_exception_str send utcnow GetRoot
    = handle cfg http_exception_str send' utcnow GetRoot
  /\ handle cfg http_exception_str send utcnow GetHealth
     = {| reply_status := 200;
          reply_body := JObj [("status", JStr "healthy");
                              ("timestamp", JStr (isoformat utcnow))] |}
  /\ handle cfg http_exception_str send utcnow GetHealth
     = handle cfg http_exception_str send' utcnow GetHealth
  /\ reply_status (handle cfg http_exception_str send utcnow GetRoot) = 200
  /\ is_iso8601 (isoformat utcnow) = true.
Proof.
  intros Hvalid. repeat split. by apply isoformat_is_iso8601.
Qed.

End Shallow.

Section StartupConverse.

Implicit Types (environ : gmap string string).

(** X14.  The process serves exactly when both settings are set to
    non-empty strings, and then the handlers work with those very strings:
    nothing is trimmed or defaulted. *)
Theorem serving_iff_both_settings environ (c : config) :
  start environ = Serving c
  <-> environ !! "SUPABASE_URL" = Some (SUPABASE_URL c)
      /\ environ !! "SUPABASE_SERVICE_KEY" = Some (SUPABASE_SERVICE_KEY c)
      /\ SUPABASE_URL c <> "" /\ SUPABASE_SERVICE_KEY c <> "".
Proof.
  split.
  - unfold start, load_settings.
    destruct (environ !! "SUPABASE_URL") as [url|]; [| done].
    destruct (environ !! "SUPABASE_SERVICE_KEY") as [key|]; simpl.
    + do 2 case_bool_decide; simpl; try done.
      intros [= <-]. simpl. done.
    + by rewrite orb_true_r.
  - intros (Hu & Hk & Hune & Hkne). unfold start.
    rewrite (load_settings_ok _ _ _ Hu Hk Hune Hkne). by destruct c.
Qed.

End StartupConverse.

(** ** The further properties on concrete calls *)

Lemma save_failure_is_always_500_witness :
  respond (save_context sample_cfg starlette_str (always accepted_response)
             sample_context sample_time)
  = error_reply 500 "Error saving context: 204: Failed to save context: ".
Proof.
  apply (save_failure_is_always_500 sample_cfg starlette_str (always accepted_response)
           sample_context sample_time accepted_response).
  - reflexivity.
  - discriminate.
  - discriminate.
Defined.

Lemma query_failure_is_always_500_witness :
  respond (get_context sample_cfg starlette_legacy_str (always created_response)
             (Some "u1") None 5)
  = error_reply 500 "Error retrieving context: ".
Proof.
  apply (query_failure_is_always_500 sample_cfg starlette_legacy_str
           (always created_response) (Some "u1") None 5 created_response).
  - reflexivity.
  - discriminate.
Defined.

Lemma transport_failure_replies_witness :
  respond (save_context sample_cfg starlette_str
             (failing (HTTPError "All connection attempts failed"))
             sample_context sample_time)
  = error_reply 500 "HTTP error occurred: All connection attempts failed"
  /\ respond (get_context sample_cfg starlette_str
                (failing (OtherException "InvalidURL" "Invalid port"))
                None None 10)
     = error_reply 500 "Error retrieving context: Invalid port".
Proof.
  split.
  - apply (transport_failure_replies sample_cfg starlette_str
             (failing (HTTPError "All connection attempts failed"))
             sample_context sample_time None None 10
             (HTTPError "All connection attempts failed")).
    reflexivity.
  - apply (transport_failure_replies sample_cfg starlette_str
             (failing (OtherException "InvalidURL" "Invalid port"))
             sample_context sample_time None None 10
             (OtherException "InvalidURL" "Invalid port")).
    reflexivity.
Defined.

Lemma query_unsized_body_is_500_witness :
  respond (get_context sample_cfg starlette_str (always null_response) None None 10)
  = error_reply 500 "Error retrieving context: object of type 'NoneType' has no len()".
Proof.
  apply (query_unsized_body_is_500 sample_cfg starlette_str (always null_response)
           None None 10 null_response JNull); reflexivity.
Defined.

Lemma query_counts_any_sized_body_witness :
  respond (get_context sample_cfg starlette_str (always error_object_response)
             None None 10)
  = {| reply_status := 200;
       reply_body :=
         JObj [("success", JBool true);
               ("count", JInt 2);
               ("data", JObj [("code", JStr "PGRST100");
                              ("message", JStr "parse error")])] |}.
Proof.
  destruct (query_counts_any_sized_body sample_cfg starlette_str
              (always error_object_response) None None 10 error_object_response)
    as [Hobj _]; [reflexivity | reflexivity |].
  apply (Hobj [("code", JStr "PGRST100"); ("message", JStr "parse error")]).
  reflexivity.
Defined.

Lemma undecodable_body_is_500_witness :
  respond (get_context sample_cfg starlette_str (always html_response) None None 10)
  = error_reply 500
      "Error retrieving context: Expecting value: line 1 column 1 (char 0)".
Proof.
  destruct (undecodable_body_is_500 sample_cfg starlette_str (always html_response)
              sample_context sample_time None None 10 html_response
              "Expecting value: line 1 column 1 (char 0)")
    as [_ Hget]; [reflexivity |].
  apply Hget; reflexivity.
Defined.

Lemma save_forwards_caller_fields_witness :
  exists payload,
    save_context sample_cfg starlette_str echo_store tagged_context sample_time
    = Return (saved_envelope (JObj payload))
    /\ dict_get "metadata" payload = Some (JObj [("source", JStr "mobile")]).
Proof.
  destruct (save_forwards_caller_fields sample_cfg starlette_str tagged_context sample_time)
    as (_ & payload & _ & Hecho & _ & _ & _ & _ & Hmeta).
  exists payload. split; [exact Hecho |].
  apply Hmeta. reflexivity.
Defined.

Lemma query_url_both_filters_witness :
  get_url sample_cfg (Some "u1") (Some "note") 5
  = "https://vault.example.co/rest/v1/context_vault?user_id=eq.u1&context_type=eq.note&limit=5&order=created_at.desc".
Proof.
  apply (query_url_both_filters sample_cfg "u1" "note" 5); discriminate.
Defined.

Lemma query_url_determines_limit_witness :
  int_of_str (str_int (-5)) = -5 /\ (-5 = -5).
Proof.
  destruct (query_url_determines_limit sample_cfg (Some "u1") None (-5) (-5))
    as [Hround Hinj].
  split; [exact Hround | apply Hinj; reflexivity].
Defined.

Lemma root_and_health_are_local_witness :
  handle sample_cfg starlette_str (failing (HTTPError "down")) sample_time GetHealth
  = {| reply_status := 200;
       reply_body := JObj [("status", JStr "healthy");
                           ("timestamp", JStr "2024-02-29T09:05:00.000120")] |}.
Proof.
  destruct (root_and_health_are_local sample_cfg starlette_str
              (failing (HTTPError "down")) (always rows_response) sample_time)
    as (_ & Hhealth & _); [reflexivity |].
  exact Hhealth.
Defined.

Lemma serving_iff_both_settings_witness :
  start {["SUPABASE_URL" := "https://vault.example.co";
          "SUPABASE_SERVICE_KEY" := "service-key"]}
  = Serving sample_cfg.
Proof.
  apply (serving_iff_both_settings
           {["SUPABASE_URL" := "https://vault.example.co";
             "SUPABASE_SERVICE_KEY" := "service-key"]} sample_cfg).
  repeat split; (reflexivity || discriminate).
Defined.
